(** * Course management: gateway, lifecycle and list derivation

    A shallow embedding of
    - [src/types/course.ts]            (the data model),
    - [src/services/courseApi.ts]      (the mocked CRUD gateway over localStorage),
    - [src/store/CourseContext.tsx]    (the [reorder] state updater),
    - [src/components/ui/DraggableCourseList.tsx] ([handleDragEnd]),
    - [src/components/course/CourseListPage.tsx]  (the [filtered] memo),
    followed by the properties of the lifecycle policy and of the list
    engine.

    Conventions.  A JavaScript [number] that the program only uses as an
    integer (durations in minutes, array indices, epoch milliseconds) is a
    [Z]; a [number] that can be [NaN] ([parseInt], [Date.prototype.getTime])
    is an [option Z] with [None] for [NaN].  An optional property is an
    [option]; [undefined] inside an array is [None].  Strings are sequences
    of characters with codes below 256.  The sources of randomness and time
    ([Math.random], [new Date()]) are explicit arguments, and the artificial
    network delay of the gateway is left out: the gateway operations are
    atomic transformers of the stored collection.  What the language
    leaves to the engine, the locale and the time zone ([localeCompare],
    the date parser, the order that [sort] gives under a comparator that
    is not consistent) is a parameter, [JsRuntime]. *)

From Stdlib Require Import ZArith Lia Ascii String Sorted DecimalString.
From stdpp Require Import base option list sorting strings.

Local Open Scope string_scope.
Local Open Scope list_scope.
Local Open Scope Z_scope.

(** ** The data model, [src/types/course.ts] *)

Inductive Status := draft | published | archived.

#[global] Instance Status_eq_dec : EqDecision Status.
Proof. solve_decision. Defined.

(** The string that a status is at run time. *)
Definition statusName (s : Status) : string :=
  match s with
  | draft => "draft"
  | published => "published"
  | archived => "archived"
  end.

Module Course.
Record t := mk {
  id : string;
  title : string;
  description : option string;
  duration : Z;
  status : Status;
  createdAt : string;
  publishedAt : option string;
}.
End Course.

Module CourseFormData.
Record t := mk {
  title : string;
  description : option string;
  duration : Z;
}.
End CourseFormData.

(** The data of an update.  [updateCourse] declares its second argument as
    [Partial<CourseFormData> & { status?: Course['status'] }], but the
    [update] of the provider takes a [Partial<Course>] and passes it on as
    it is, so the object that reaches the spread may hold any property of
    a course.  A property is absent ([None]) or present.  [description]
    and [publishedAt] are optional in [Course]: when present they hold a
    string or [undefined] ([Some None]), and the spread copies either.
    The other five are required in [Course]: when present they hold a
    value, which is how TypeScript types the spread (with [undefined]
    there the stored object would not be a [Course]). *)
Module CoursePatch.
Record t := mk {
  id : option string;
  title : option string;
  description : option (option string);
  duration : option Z;
  status : option Status;
  createdAt : option string;
  publishedAt : option (option string);
}.
End CoursePatch.

#[global] Instance Course_eq_dec : EqDecision Course.t.
Proof. solve_decision. Defined.

(** JavaScript truthiness of an optional string property: [undefined] and
    the empty string are falsy. *)
Definition truthy (o : option string) : bool :=
  match o with
  | Some s => negb (bool_decide (s = ""))
  | None => false
  end.

(** ** The gateway, [src/services/courseApi.ts] *)

Module courseApi.

(** The object literals that the gateway throws. *)
Record ApiError := mkError { err_status : Z; message : string }.

Inductive result (A : Type) :=
| Ok (a : A)
| Throw (e : ApiError).
Arguments Ok {A} a.
Arguments Throw {A} e.

(** What localStorage holds under the key ['courses'], already parsed;
    an absent key reads as the empty array. *)
Abbreviation Storage := (list Course.t) (only parsing).

(** Computations over the storage that may throw.  A throw leaves the
    storage as it was when the exception was raised. *)
Definition M (A : Type) := Storage -> result A * Storage.

Definition ret {A} (a : A) : M A := fun s => (Ok a, s).
Definition throw {A} (e : ApiError) : M A := fun s => (Throw e, s).
Definition bind {A B} (m : M A) (k : A -> M B) : M B :=
  fun s =>
    match m s with
    | (Ok a, s') => k a s'
    | (Throw e, s') => (Throw e, s')
    end.

Notation "'let*' x ':=' m 'in' k" := (bind m (fun x => k))
  (at level 10, x name, m at level 100, k at level 200).
Notation "'do_' m 'in' k" := (bind m (fun _ => k))
  (at level 10, m at level 100, k at level 200).

Definition getCoursesFromStorage : M (list Course.t) := fun s => (Ok s, s).
Definition saveCoursesToStorage (courses : list Course.t) : M unit :=
  fun _ => (Ok tt, courses).

(** [courses.findIndex(c => c.id === id)]: the first match, if any. *)
Definition findIndex (id : string) (courses : list Course.t)
  : option (nat * Course.t) :=
  list_find (fun c => Course.id c = id) courses.

(** [getCourses]: [failure] is the outcome of [Math.random() < 0.05]. *)
Definition getCourses (failure : bool) : M (list Course.t) :=
  if failure then throw (mkError 500 "Network error")
  else getCoursesFromStorage.

Definition getCourse (id : string) : M Course.t :=
  let* courses := getCoursesFromStorage in
  match findIndex id courses with
  | None => throw (mkError 404 "Course not found")
  | Some (_, course) => ret course
  end.

(** [createCourse]: [rnd] is the random identifier and [now] the
    timestamp [new Date().toISOString()]. *)
Definition createCourse (rnd now : string) (data : CourseFormData.t)
  : M Course.t :=
  if bool_decide (CourseFormData.title data = "")
     || (CourseFormData.duration data <=? 0)
  then throw (mkError 400 "Invalid data")
  else
    let newCourse :=
      {| Course.id := rnd;
         Course.title := CourseFormData.title data;
         Course.description := CourseFormData.description data;
         Course.duration := CourseFormData.duration data;
         Course.status := draft;
         Course.createdAt := now;
         Course.publishedAt := None |} in
    let* courses := getCoursesFromStorage in
    do_ saveCoursesToStorage (courses ++ [newCourse]) in
    ret newCourse.

(** The object spread [{ ...course, ...data }]: every property that
    [data] holds replaces the one of [course], also when its value is
    [undefined]. *)
Definition spread (course : Course.t) (data : CoursePatch.t) : Course.t :=
  {| Course.id := default (Course.id course) (CoursePatch.id data);
     Course.title := default (Course.title course) (CoursePatch.title data);
     Course.description :=
       default (Course.description course) (CoursePatch.description data);
     Course.duration :=
       default (Course.duration course) (CoursePatch.duration data);
     Course.status := default (Course.status course) (CoursePatch.status data);
     Course.createdAt :=
       default (Course.createdAt course) (CoursePatch.createdAt data);
     Course.publishedAt :=
       default (Course.publishedAt course) (CoursePatch.publishedAt data) |}.

Definition setPublishedAt (course : Course.t) (now : string) : Course.t :=
  {| Course.id := Course.id course;
     Course.title := Course.title course;
     Course.description := Course.description course;
     Course.duration := Course.duration course;
     Course.status := Course.status course;
     Course.createdAt := Course.createdAt course;
     Course.publishedAt := Some now |}.

(** [updateCourse]: [now] is [new Date().toISOString()], read only when
    the course is stamped. *)
Definition updateCourse (now : string) (id : string) (data : CoursePatch.t)
  : M Course.t :=
  let* courses := getCoursesFromStorage in
  match findIndex id courses with
  | None => throw (mkError 404 "Course not found")
  | Some (idx, course) =>
      if bool_decide (Course.status course = archived)
      then throw (mkError 403 "Cannot edit archived course")
      else
        let merged := spread course data in
        let merged :=
          if bool_decide (CoursePatch.status data = Some published)
             && negb (truthy (Course.publishedAt merged))
          then setPublishedAt merged now
          else merged in
        do_ saveCoursesToStorage (<[idx := merged]> courses) in
        ret merged
  end.

Definition deleteCourse (id : string) : M unit :=
  let* courses := getCoursesFromStorage in
  match findIndex id courses with
  | None => throw (mkError 404 "Course not found")
  | Some (idx, _) => saveCoursesToStorage (delete idx courses)
  end.

(** The four failures by their status code. *)
Definition ValidationError := mkError 400 "Invalid data".
Definition NotFoundError := mkError 404 "Course not found".
Definition EditForbiddenError := mkError 403 "Cannot edit archived course".
Definition FetchError := mkError 500 "Network error".

End courseApi.

(** ** The JavaScript run time used by the list page *)

(** A [number] that may be [NaN].  Every comparison with [NaN] is false. *)
Definition num := option Z.

Definition num_ge (a b : num) : bool :=
  match a, b with
  | Some x, Some y => x >=? y
  | _, _ => false
  end.

Definition num_le (a b : num) : bool :=
  match a, b with
  | Some x, Some y => x <=? y
  | _, _ => false
  end.

Definition num_sub (a b : num) : num :=
  match a, b with
  | Some x, Some y => Some (x - y)
  | _, _ => None
  end.

Definition num_neg (a : num) : num := Z.opp <$> a.

(** Truthiness of a string: only the empty string is falsy. *)
Definition nonEmpty (s : string) : bool := negb (bool_decide (s = "")).

(** [Array.prototype.splice(start, deleteCount, ...items)] with both
    numbers already integers: a negative [start] counts from the end, both
    are clamped to the array.  The result is the removed elements and the
    array after the call. *)
Definition splice {A} (start deleteCount : Z) (items : list A) (arr : list A)
  : list A * list A :=
  let len := Z.of_nat (length arr) in
  let actualStart :=
    if start <? 0 then Z.max (len + start) 0 else Z.min start len in
  let actualDeleteCount := Z.min (Z.max deleteCount 0) (len - actualStart) in
  let k := Z.to_nat actualStart in
  let d := Z.to_nat actualDeleteCount in
  (take d (drop k arr), take k arr ++ items ++ drop (k + d)%nat arr).

(** [Array.prototype.findIndex], with [-1] when nothing matches. *)
Definition findIndexZ {A} (p : A -> bool) (arr : list A) : Z :=
  match list_find (fun x => p x = true) arr with
  | Some (i, _) => Z.of_nat i
  | None => -1
  end.

(** [String.prototype.includes]. *)
Fixpoint includes (s sub : string) : bool :=
  String.prefix sub s
  || match s with
     | EmptyString => false
     | String _ rest => includes rest sub
     end.

(** [parseInt(s)] without a radix: leading white space is skipped, a sign
    and a [0x] prefix are read, then the longest run of digits of the radix;
    no digit at all gives [NaN].  Among the characters with codes below
    256, the white space and line terminators of the language are the
    codes 9 to 13, the space and the no-break space. *)
Definition isWhiteSpace (c : ascii) : bool :=
  let n := nat_of_ascii c in
  ((9 <=? n) && (n <=? 13))%nat || (n =? 32)%nat || (n =? 160)%nat.

Fixpoint trimStart (s : string) : string :=
  match s with
  | String c rest => if isWhiteSpace c then trimStart rest else s
  | EmptyString => s
  end.

Definition digitValue (c : ascii) : option Z :=
  let n := Z.of_nat (nat_of_ascii c) in
  if (48 <=? n) && (n <=? 57) then Some (n - 48)
  else if (97 <=? n) && (n <=? 122) then Some (n - 87)
  else if (65 <=? n) && (n <=? 90) then Some (n - 55)
  else None.

Fixpoint parseDigits (radix : Z) (s : string) (acc : num) : num :=
  match s with
  | String c rest =>
      match digitValue c with
      | Some d =>
          if d <? radix
          then parseDigits radix rest (Some (default 0 acc * radix + d))
          else acc
      | None => acc
      end
  | EmptyString => acc
  end.

Definition parseInt (s : string) : num :=
  let s := trimStart s in
  let '(sign, s) :=
    match s with
    | String "-" rest => (-1, rest)
    | String "+" rest => (1, rest)
    | _ => (1, s)
    end in
  let '(radix, s) :=
    match s with
    | String "0" (String "x" rest) => (16, rest)
    | String "0" (String "X" rest) => (16, rest)
    | _ => (10, s)
    end in
  Z.mul sign <$> parseDigits radix s None.

(** [Array.prototype.sort(comparefn)].  A [NaN] returned by [comparefn]
    counts as [+0].  When [comparefn] is a consistent comparator for the
    elements of the array, the language fixes the result: the elements in
    the order of the comparator, those that tie in the order they had.
    [stableSort] computes that array: it inserts each element in front of
    the sorted rest, before the first element that it does not follow
    (lemma [stableSort_unique] below: no stable sort returns another).
    For any other comparator the language leaves the order to the engine;
    that is the [sort] of [JsRuntime] below. *)
Definition SortCompare {A} (comparefn : A -> A -> num) (x y : A) : Z :=
  default 0 (comparefn x y).

Fixpoint sortInsert {A} (comparefn : A -> A -> num) (x : A) (l : list A)
  : list A :=
  match l with
  | [] => [x]
  | y :: rest =>
      if SortCompare comparefn x y >? 0
      then y :: sortInsert comparefn x rest
      else x :: l
  end.

Definition stableSort {A} (comparefn : A -> A -> num) (arr : list A)
  : list A :=
  foldr (sortInsert comparefn) [] arr.

(** A consistent comparator: it ties every element with itself, swapping
    the arguments swaps the sign, and "does not follow" is transitive. *)
Record Consistent {A} (comparefn : A -> A -> num) : Prop := {
  consistent_refl : forall x, SortCompare comparefn x x = 0;
  consistent_flip :
    forall x y, SortCompare comparefn x y > 0 <-> SortCompare comparefn y x < 0;
  consistent_trans :
    forall x y z, SortCompare comparefn x y <= 0 ->
                  SortCompare comparefn y z <= 0 ->
                  SortCompare comparefn x z <= 0;
}.

(** A comparator that is consistent for the elements of [arr], which is
    all that the language asks of it when [arr] is sorted. *)
Record ConsistentOn {A} (comparefn : A -> A -> num) (arr : list A) : Prop := {
  consistentOn_refl : forall x, x ∈ arr -> SortCompare comparefn x x = 0;
  consistentOn_flip :
    forall x y, x ∈ arr -> y ∈ arr ->
      (SortCompare comparefn x y > 0 <-> SortCompare comparefn y x < 0);
  consistentOn_trans :
    forall x y z, x ∈ arr -> y ∈ arr -> z ∈ arr ->
      SortCompare comparefn x y <= 0 ->
      SortCompare comparefn y z <= 0 ->
      SortCompare comparefn x z <= 0;
}.

(** The elements of [l] that tie with [x]. *)
Definition ties {A} (comparefn : A -> A -> num) (x : A) (l : list A) : list A :=
  List.filter (fun y => SortCompare comparefn x y =? 0) l.

(** The parts of the run time that depend on the locale, the time zone and
    the engine:
    - [localeCompare a b] is [a.localeCompare(b)], which the language
      requires to be a consistent comparator of strings;
    - [toLowerCase s] is [s.toLowerCase()];
    - [dateValue s] is the time value of [new Date(s)], [NaN] for an
      invalid date;
    - [endOfDay t] is the time value after [setHours(23, 59, 59, 999)] on a
      valid date of time value [t];
    - [sort comparefn arr] is the array after [arr.sort(comparefn)]: it
      holds the elements of [arr], and for a comparator that is consistent
      on them it is the array that the language prescribes. *)
Class JsRuntime := {
  localeCompare : string -> string -> Z;
  localeCompare_consistent :
    Consistent (fun a b : string => Some (localeCompare a b));
  toLowerCase : string -> string;
  dateValue : string -> num;
  endOfDay : Z -> Z;
  sort : forall A : Type, (A -> A -> num) -> list A -> list A;
  sort_perm :
    forall (A : Type) (comparefn : A -> A -> num) (arr : list A),
      sort A comparefn arr ≡ₚ arr;
  sort_consistent :
    forall (A : Type) (comparefn : A -> A -> num) (arr : list A),
      ConsistentOn comparefn arr ->
      sort A comparefn arr = stableSort comparefn arr;
}.
Arguments sort {_ A} comparefn arr.
Arguments sort_perm {_ A} comparefn arr.
Arguments sort_consistent {_ A} comparefn arr.

(** ** The store, [src/store/CourseContext.tsx] *)

Module CourseContext.

(** The updater that [reorder] passes to [setCourses].  The array is a
    JavaScript array: the destructuring [const [removed] = ...] reads
    [undefined] from an empty array, and that value is inserted like any
    other. *)
Definition reorder (startIndex endIndex : Z)
    (prevCourses : list (option Course.t)) : list (option Course.t) :=
  let newCourses := prevCourses in
  let '(removedItems, newCourses) := splice startIndex 1 [] newCourses in
  let removed := default None (head removedItems) in
  let '(_, newCourses) := splice endIndex 0 [removed] newCourses in
  newCourses.

End CourseContext.

(** ** The drag list, [src/components/ui/DraggableCourseList.tsx] *)

Module DraggableCourseList.

(** [handleDragEnd]: [courses] is the list the component was given to
    display, [active] the identifier of the dragged item and [over] that
    of the item it was dropped on ([None] when there is none).  The
    result is what becomes of the state behind [onReorder]. *)
Definition handleDragEnd {S} (courses : list Course.t)
    (onReorder : Z -> Z -> S -> S) (active : string) (over : option string)
  : S -> S :=
  if negb (bool_decide (Some active = over)) then
    let oldIndex :=
      findIndexZ (fun course => bool_decide (Course.id course = active))
                 courses in
    let newIndex :=
      findIndexZ (fun course => bool_decide (Some (Course.id course) = over))
                 courses in
    if negb (oldIndex =? -1) && negb (newIndex =? -1)
    then onReorder oldIndex newIndex
    else fun s => s
  else fun s => s.

End DraggableCourseList.

(** ** The list page, [src/components/course/CourseListPage.tsx] *)

Module CourseListPage.

Inductive ViewMode := grid | list_ | drag.
Inductive SortOrder := asc | desc.

#[global] Instance ViewMode_eq_dec : EqDecision ViewMode.
Proof. solve_decision. Defined.
#[global] Instance SortOrder_eq_dec : EqDecision SortOrder.
Proof. solve_decision. Defined.

Record DateRange := { start : string; end_ : string }.
Record DurationRange := { min : string; max : string }.

Record FilterState := {
  status : string;
  search : string;
  sortBy : string;
  sortOrder : SortOrder;
  view : ViewMode;
  showAdvancedFilters : bool;
  dateRange : DateRange;
  durationRange : DurationRange;
}.

Section Engine.
Context {rt : JsRuntime}.

(** The comparator handed to [sort]. *)
Definition comparefn (filters : FilterState) (a b : Course.t) : num :=
  let cmp : num :=
    if bool_decide (sortBy filters = "title")
    then Some (localeCompare (Course.title a) (Course.title b))
    else if bool_decide (sortBy filters = "createdAt")
    then num_sub (dateValue (Course.createdAt a))
                 (dateValue (Course.createdAt b))
    else if bool_decide (sortBy filters = "duration")
    then Some (Course.duration a - Course.duration b)
    else Some 0 in
  if bool_decide (sortOrder filters = asc) then cmp else num_neg cmp.

(** The [filtered] memo. *)
Definition filtered (courses : list Course.t) (filters : FilterState)
  : list Course.t :=
  let filtered := courses in
  (* Basic filters *)
  let filtered :=
    if negb (bool_decide (status filters = "all"))
    then List.filter
           (fun c => bool_decide (statusName (Course.status c)
                                  = status filters)) filtered
    else filtered in
  let filtered :=
    if nonEmpty (search filters)
    then List.filter
           (fun c => includes (toLowerCase (Course.title c))
                              (toLowerCase (search filters))) filtered
    else filtered in
  (* Advanced filters *)
  let filtered :=
    if nonEmpty (start (dateRange filters))
    then
      let startDate := dateValue (start (dateRange filters)) in
      List.filter
        (fun c => num_ge (dateValue (Course.createdAt c)) startDate)
        filtered
    else filtered in
  let filtered :=
    if nonEmpty (end_ (dateRange filters))
    then
      let endDate := endOfDay <$> dateValue (end_ (dateRange filters)) in
      List.filter
        (fun c => num_le (dateValue (Course.createdAt c)) endDate)
        filtered
    else filtered in
  let filtered :=
    if nonEmpty (min (durationRange filters))
    then
      let minDuration := parseInt (min (durationRange filters)) in
      List.filter
        (fun c => num_ge (Some (Course.duration c)) minDuration) filtered
    else filtered in
  let filtered :=
    if nonEmpty (max (durationRange filters))
    then
      let maxDuration := parseInt (max (durationRange filters)) in
      List.filter
        (fun c => num_le (Some (Course.duration c)) maxDuration) filtered
    else filtered in
  (* Only apply sorting if not in drag mode *)
  let filtered :=
    if negb (bool_decide (view filters = drag))
    then sort (comparefn filters) filtered
    else filtered in
  filtered.

(** [handleViewChange]: [setFilters(prev => ({ ...prev, view }))]. *)
Definition handleViewChange (view' : ViewMode) (prev : FilterState)
  : FilterState :=
  {| status := status prev;
     search := search prev;
     sortBy := sortBy prev;
     sortOrder := sortOrder prev;
     view := view';
     showAdvancedFilters := showAdvancedFilters prev;
     dateRange := dateRange prev;
     durationRange := durationRange prev |}.

Definition handleReorder (startIndex endIndex : Z)
  : list (option Course.t) -> list (option Course.t) :=
  CourseContext.reorder startIndex endIndex.

(** What a finished drag does to the collection of the store when the
    page shows it in the drag view: the drag list receives [filtered]
    and [handleReorder]. *)
Definition dragEnd (courses : list Course.t) (filters : FilterState)
    (active : string) (over : option string) : list (option Course.t) :=
  DraggableCourseList.handleDragEnd (filtered courses filters)
    handleReorder active over (Some <$> courses).

(** The value that the comparator of [filters.sortBy] compares: the
    title, the time value of [createdAt] or the duration; nothing for
    any other [sortBy]. *)
Inductive SortKey :=
| ByTitle (s : string)
| ByCreatedAt (t : num)
| ByDuration (d : Z)
| Unsorted.

#[global] Instance SortKey_eq_dec : EqDecision SortKey.
Proof. solve_decision. Defined.



End Engine.

End CourseListPage.

(** ** Sequences of gateway writes *)

Module Lifecycle.
Import courseApi.

(** A write request together with what the environment supplies to it:
    the random identifier and the clock reading. *)
Inductive Op :=
| Create (rnd now : string) (data : CourseFormData.t)
| Update (now id : string) (data : CoursePatch.t).

(** The storage after a request; a request that throws leaves it as it
    was. *)
Definition apply (op : Op) (s : Storage) : Storage :=
  match op with
  | Create rnd now data => snd (createCourse rnd now data s)
  | Update now id data => snd (updateCourse now id data s)
  end.

Definition run (ops : list Op) (s : Storage) : Storage :=
  foldl (fun s op => apply op s) s ops.

Definition clock (op : Op) : string :=
  match op with
  | Create _ now _ => now
  | Update now _ _ => now
  end.

(** The course in position [i] had status [published] after some prefix
    of the requests. *)
Definition everPublished (ops : list Op) (s0 : Storage) (i : nat) : Prop :=
  exists k c, (k <= length ops)%nat
              /\ run (take k ops) s0 !! i = Some c
              /\ Course.status c = published.

(** A course as [createCourse] leaves it. *)
Definition fresh (c : Course.t) : Prop :=
  Course.status c = draft /\ Course.publishedAt c = None.

(** The data of the request holds no [publishedAt] property. *)
Definition leavesPublishedAt (op : Op) : Prop :=
  match op with
  | Create _ _ _ => True
  | Update _ _ data => CoursePatch.publishedAt data = None
  end.

(** The data of the request holds neither [id] nor [createdAt]. *)
Definition leavesIdentity (op : Op) : Prop :=
  match op with
  | Create _ _ _ => True
  | Update _ _ data =>
      CoursePatch.id data = None /\ CoursePatch.createdAt data = None
  end.

(** The course that a successful [updateCourse] stores and returns. *)
Definition updated (now : string) (course : Course.t) (data : CoursePatch.t)
  : Course.t :=
  let merged := spread course data in
  if bool_decide (CoursePatch.status data = Some published)
     && negb (truthy (Course.publishedAt merged))
  then setPublishedAt merged now
  else merged.

End Lifecycle.

(** ** The write requests that the pages issue *)

Module Pages.
Import Lifecycle.

(** [handlePublish] of the list page: [update(id, { status: 'published' })]. *)
Definition handlePublish (now id : string) : Op :=
  Update now id
    {| CoursePatch.id := None;
       CoursePatch.title := None;
       CoursePatch.description := None;
       CoursePatch.duration := None;
       CoursePatch.status := Some published;
       CoursePatch.createdAt := None;
       CoursePatch.publishedAt := None |}.

(** [handleArchive] of the list page: [update(id, { status: 'archived' })]. *)
Definition handleArchive (now id : string) : Op :=
  Update now id
    {| CoursePatch.id := None;
       CoursePatch.title := None;
       CoursePatch.description := None;
       CoursePatch.duration := None;
       CoursePatch.status := Some archived;
       CoursePatch.createdAt := None;
       CoursePatch.publishedAt := None |}.

(** [onSubmit] of the form page: [update(course.id, { ...data })] when it
    edits and [create(data)] otherwise.  The copy holds the properties of
    the form data, a description only when the form data has one. *)
Definition onSubmit (edited : option Course.t) (rnd now : string)
    (data : CourseFormData.t) : Op :=
  match edited with
  | Some course =>
      Update now (Course.id course)
        {| CoursePatch.id := None;
           CoursePatch.title := Some (CourseFormData.title data);
           CoursePatch.description := Some <$> CourseFormData.description data;
           CoursePatch.duration := Some (CourseFormData.duration data);
           CoursePatch.status := None;
           CoursePatch.createdAt := None;
           CoursePatch.publishedAt := None |}
  | None => Create rnd now data
  end.

Inductive pageRequest : Op -> Prop :=
| request_publish now id : pageRequest (handlePublish now id)
| request_archive now id : pageRequest (handleArchive now id)
| request_submit edited rnd now data :
    pageRequest (onSubmit edited rnd now data).

(** The request asks for status [draft]. *)
Definition requestsDraft (op : Op) : bool :=
  match op with
  | Create _ _ _ => false
  | Update _ _ data => bool_decide (CoursePatch.status data = Some draft)
  end.

End Pages.

(** ** Values for closed examples *)

Module Sample.

(** The two courses of the store's test suite. *)
Definition reactFundamentals : Course.t :=
  {| Course.id := "1";
     Course.title := "React Fundamentals";
     Course.description := Some "Learn React basics";
     Course.duration := 120;
     Course.status := draft;
     Course.createdAt := "2024-01-01T00:00:00Z";
     Course.publishedAt := None |}.

Definition advancedTypeScript : Course.t :=
  {| Course.id := "2";
     Course.title := "Advanced TypeScript";
     Course.description := Some "Master TypeScript";
     Course.duration := 180;
     Course.status := published;
     Course.createdAt := "2024-01-02T00:00:00Z";
     Course.publishedAt := Some "2024-01-03T00:00:00Z" |}.

Definition nodeBasics : Course.t :=
  {| Course.id := "3";
     Course.title := "Node Basics";
     Course.description := None;
     Course.duration := 90;
     Course.status := published;
     Course.createdAt := "2024-01-05T00:00:00Z";
     Course.publishedAt := Some "2024-01-06T00:00:00Z" |}.

Definition legacyCourse : Course.t :=
  {| Course.id := "4";
     Course.title := "Legacy Course";
     Course.description := None;
     Course.duration := 45;
     Course.status := archived;
     Course.createdAt := "2023-06-01T00:00:00Z";
     Course.publishedAt := Some "2023-06-02T00:00:00Z" |}.

Definition newCourse : CourseFormData.t :=
  {| CourseFormData.title := "New Course";
     CourseFormData.description := Some "Test";
     CourseFormData.duration := 60 |}.

Definition noChange : CoursePatch.t :=
  {| CoursePatch.id := None;
     CoursePatch.title := None;
     CoursePatch.description := None;
     CoursePatch.duration := None;
     CoursePatch.status := None;
     CoursePatch.createdAt := None;
     CoursePatch.publishedAt := None |}.

Definition setStatus (s : Status) : CoursePatch.t :=
  {| CoursePatch.id := None;
     CoursePatch.title := None;
     CoursePatch.description := None;
     CoursePatch.duration := None;
     CoursePatch.status := Some s;
     CoursePatch.createdAt := None;
     CoursePatch.publishedAt := None |}.

Definition setTitle (t : string) : CoursePatch.t :=
  {| CoursePatch.id := None;
     CoursePatch.title := Some t;
     CoursePatch.description := None;
     CoursePatch.duration := None;
     CoursePatch.status := None;
     CoursePatch.createdAt := None;
     CoursePatch.publishedAt := None |}.

Definition setDuration (d : Z) : CoursePatch.t :=
  {| CoursePatch.id := None;
     CoursePatch.title := None;
     CoursePatch.description := None;
     CoursePatch.duration := Some d;
     CoursePatch.status := None;
     CoursePatch.createdAt := None;
     CoursePatch.publishedAt := None |}.

(** The initial filter state of the list page, in the drag view. *)
Definition dragFilters : CourseListPage.FilterState :=
  {| CourseListPage.status := "all";
     CourseListPage.search := "";
     CourseListPage.sortBy := "createdAt";
     CourseListPage.sortOrder := CourseListPage.desc;
     CourseListPage.view := CourseListPage.drag;
     CourseListPage.showAdvancedFilters := false;
     CourseListPage.dateRange :=
       {| CourseListPage.start := ""; CourseListPage.end_ := "" |};
     CourseListPage.durationRange :=
       {| CourseListPage.min := ""; CourseListPage.max := "" |} |}.

Definition withStatus (s : string) (f : CourseListPage.FilterState)
  : CourseListPage.FilterState :=
  {| CourseListPage.status := s;
     CourseListPage.search := CourseListPage.search f;
     CourseListPage.sortBy := CourseListPage.sortBy f;
     CourseListPage.sortOrder := CourseListPage.sortOrder f;
     CourseListPage.view := CourseListPage.view f;
     CourseListPage.showAdvancedFilters :=
       CourseListPage.showAdvancedFilters f;
     CourseListPage.dateRange := CourseListPage.dateRange f;
     CourseListPage.durationRange := CourseListPage.durationRange f |}.

Definition withDuration (lo hi : string) (f : CourseListPage.FilterState)
  : CourseListPage.FilterState :=
  {| CourseListPage.status := CourseListPage.status f;
     CourseListPage.search := CourseListPage.search f;
     CourseListPage.sortBy := CourseListPage.sortBy f;
     CourseListPage.sortOrder := CourseListPage.sortOrder f;
     CourseListPage.view := CourseListPage.view f;
     CourseListPage.showAdvancedFilters :=
       CourseListPage.showAdvancedFilters f;
     CourseListPage.dateRange := CourseListPage.dateRange f;
     CourseListPage.durationRange :=
       {| CourseListPage.min := lo; CourseListPage.max := hi |} |}.

Definition byDuration (order : CourseListPage.SortOrder)
  : CourseListPage.FilterState :=
  {| CourseListPage.status := "all";
     CourseListPage.search := "";
     CourseListPage.sortBy := "duration";
     CourseListPage.sortOrder := order;
     CourseListPage.view := CourseListPage.grid;
     CourseListPage.showAdvancedFilters := false;
     CourseListPage.dateRange :=
       {| CourseListPage.start := ""; CourseListPage.end_ := "" |};
     CourseListPage.durationRange :=
       {| CourseListPage.min := ""; CourseListPage.max := "" |} |}.

Definition shortCourse : Course.t :=
  {| Course.id := "5";
     Course.title := "Short Course";
     Course.description := None;
     Course.duration := 120;
     Course.status := draft;
     Course.createdAt := "2024-01-07T00:00:00Z";
     Course.publishedAt := None |}.

(** Data that holds [publishedAt] only, and data that holds [id] and
    [createdAt] only. *)
Definition setPublishedAt (p : option string) : CoursePatch.t :=
  {| CoursePatch.id := None;
     CoursePatch.title := None;
     CoursePatch.description := None;
     CoursePatch.duration := None;
     CoursePatch.status := None;
     CoursePatch.createdAt := None;
     CoursePatch.publishedAt := Some p |}.

Definition setIdentity (id createdAt : string) : CoursePatch.t :=
  {| CoursePatch.id := Some id;
     CoursePatch.title := None;
     CoursePatch.description := None;
     CoursePatch.duration := None;
     CoursePatch.status := None;
     CoursePatch.createdAt := Some createdAt;
     CoursePatch.publishedAt := None |}.

(** A draft under the identifier of the archived course. *)
Definition legacyDraft : Course.t :=
  {| Course.id := "4";
     Course.title := "Legacy Course, again";
     Course.description := None;
     Course.duration := 45;
     Course.status := draft;
     Course.createdAt := "2024-01-08T00:00:00Z";
     Course.publishedAt := None |}.




End Sample.

(** ** A run time for closed examples

    Strings are compared by their code units, only the letters [A] to [Z]
    have a lower case, the local time zone is UTC, a date is read in the
    format of [toISOString], and the sort is the one of V8 for arrays of
    fewer than 64 elements.  [SampleEngine] holds the operations; the run
    time, [SampleRuntime.runtime], is put together further down, behind
    the proofs that the operations meet the laws of [JsRuntime]. *)
Module SampleEngine.

Definition codeUnitCompare (a b : string) : Z :=
  if decide (a = b) then 0 else if String.ltb a b then -1 else 1.

Definition lowerChar (c : ascii) : ascii :=
  let n := nat_of_ascii c in
  if ((65 <=? n) && (n <=? 90))%nat then ascii_of_nat (n + 32) else c.

Fixpoint asciiLower (s : string) : string :=
  match s with
  | EmptyString => EmptyString
  | String c rest => String (lowerChar c) (asciiLower rest)
  end.

Definition msPerDay : Z := 86400000.

(** The number that [acc] and the decimal digits of [s] write; nothing
    when [s] holds another character. *)
Fixpoint decimal (s : string) (acc : Z) : option Z :=
  match s with
  | EmptyString => Some acc
  | String c rest =>
      let n := Z.of_nat (nat_of_ascii c) in
      if (48 <=? n) && (n <=? 57) then decimal rest (acc * 10 + (n - 48))
      else None
  end.

(** The [len] digits of [s] from position [from], as a number. *)
Definition field (s : string) (from len : nat) : option Z :=
  let digits := substring from len s in
  if (String.length digits =? len)%nat then decimal digits 0 else None.

Definition charAt (s : string) (pos : nat) (c : ascii) : bool :=
  bool_decide (String.get pos s = Some c).

Definition isLeapYear (y : Z) : bool :=
  (y mod 4 =? 0) && (negb (y mod 100 =? 0) || (y mod 400 =? 0)).

Definition daysInMonth (y m : Z) : Z :=
  if m =? 2 then (if isLeapYear y then 29 else 28)
  else if (m =? 4) || (m =? 6) || (m =? 9) || (m =? 11) then 30
  else 31.

(** The number of days from 1 January 1970 to the given day. *)
Definition daysFromEpoch (y m d : Z) : Z :=
  let y := if m <=? 2 then y - 1 else y in
  let era := y / 400 in
  let yearOfEra := y - era * 400 in
  let dayOfYear := (153 * (if m >? 2 then m - 3 else m + 9) + 2) / 5 + d - 1 in
  let dayOfEra := yearOfEra * 365 + yearOfEra / 4 - yearOfEra / 100
                  + dayOfYear in
  era * 146097 + dayOfEra - 719468.

(** [YYYY-MM-DD] at the start of [s]. *)
Definition datePart (s : string) : num :=
  match field s 0 4, field s 5 2, field s 8 2 with
  | Some y, Some m, Some d =>
      if charAt s 4 "-" && charAt s 7 "-"
         && (1 <=? m) && (m <=? 12) && (1 <=? d) && (d <=? daysInMonth y m)
      then Some (daysFromEpoch y m d * msPerDay)
      else None
  | _, _, _ => None
  end.

(** [THH:mm:ss] behind the date, in milliseconds. *)
Definition timePart (s : string) : num :=
  match field s 11 2, field s 14 2, field s 17 2 with
  | Some h, Some m, Some sec =>
      if charAt s 10 "T" && charAt s 13 ":" && charAt s 16 ":"
         && (h <=? 23) && (m <=? 59) && (sec <=? 59)
      then Some (((h * 60 + m) * 60 + sec) * 1000)
      else None
  | _, _, _ => None
  end.

(** The time value of [YYYY-MM-DD], [YYYY-MM-DDTHH:mm:ssZ] or
    [YYYY-MM-DDTHH:mm:ss.sssZ]; every other string is an invalid date. *)
Definition isoDate (s : string) : num :=
  let n := String.length s in
  if (n =? 10)%nat then datePart s
  else if (n =? 20)%nat && charAt s 19 "Z"
  then match datePart s, timePart s with
       | Some d, Some t => Some (d + t)
       | _, _ => None
       end
  else if (n =? 24)%nat && charAt s 19 "." && charAt s 23 "Z"
  then match datePart s, timePart s, field s 20 3 with
       | Some d, Some t, Some ms => Some (d + t + ms)
       | _, _, _ => None
       end
  else None.

(** [CountAndMakeRun]: the longest run at the start of the array that
    never descends, or that descends strictly and is then reversed.
    [runLength] counts the elements of the run behind [previousElement]. *)
Fixpoint runLength {A} (comparefn : A -> A -> num) (isDescending : bool)
    (previousElement : A) (rest : list A) : nat :=
  match rest with
  | [] => 0
  | currentElement :: rest =>
      let order := SortCompare comparefn currentElement previousElement in
      if (if isDescending then order >=? 0 else order <? 0)
      then 0
      else S (runLength comparefn isDescending currentElement rest)
  end.

Definition countAndMakeRun {A} (comparefn : A -> A -> num) (arr : list A)
  : list A * list A :=
  match arr with
  | elementHigh :: elementLow :: rest =>
      let isDescending := SortCompare comparefn elementLow elementHigh <? 0 in
      let n := (2 + runLength comparefn isDescending elementLow rest)%nat in
      (if isDescending then reverse (take n arr) else take n arr, drop n arr)
  | _ => (arr, [])
  end.

(** The search of [BinaryInsertionSort] for the place of [pivot] among the
    sorted elements before it: [pivot] goes behind every element that it
    does not precede.  The loop runs at most [fuel] times; it ends within
    [right - left] rounds whatever the comparator (lemma
    [binarySearch_fuel] below), so the number of elements is enough. *)
Fixpoint binarySearch {A} (fuel : nat) (comparefn : A -> A -> num)
    (pivot : A) (sorted : list A) (left right : nat) : nat :=
  match fuel with
  | O => left
  | S fuel =>
      if (left <? right)%nat
      then
        let mid := (left + Nat.div2 (right - left))%nat in
        match sorted !! mid with
        | Some element =>
            if SortCompare comparefn pivot element <? 0
            then binarySearch fuel comparefn pivot sorted left mid
            else binarySearch fuel comparefn pivot sorted (mid + 1) right
        | None => left
        end
      else left
  end.

Definition binaryInsert {A} (comparefn : A -> A -> num) (sorted : list A)
    (pivot : A) : list A :=
  let left :=
    binarySearch (length sorted) comparefn pivot sorted 0 (length sorted) in
  take left sorted ++ pivot :: drop left sorted.

(** [ArrayTimSortImpl] on fewer than 64 elements: there is one run, made
    by [CountAndMakeRun] and extended by [BinaryInsertionSort] to the whole
    array, and nothing to merge.  The sample run time sorts arrays of any
    length in this way. *)
Definition timSort {A} (comparefn : A -> A -> num) (arr : list A) : list A :=
  let '(run, rest) := countAndMakeRun comparefn arr in
  foldl (binaryInsert comparefn) run rest.

(** How two neighbours of a run stand to each other. *)
Definition inRun {A} (comparefn : A -> A -> num) (isDescending : bool)
    (x y : A) : Prop :=
  if isDescending then SortCompare comparefn y x < 0
  else SortCompare comparefn y x >= 0.

End SampleEngine.

(** ** The provider, [src/store/CourseContext.tsx] *)

Module CourseProvider.
Import courseApi.

(** The three pieces of React state of [CourseProvider]. *)
Record State := {
  courses : list (option Course.t);
  loading : bool;
  error : option string;
}.

Definition initialState : State :=
  {| courses := []; loading := false; error := None |}.

(** The state of the provider together with the storage behind the
    gateway.  An action of the provider runs to its end before the next
    one starts. *)
Abbreviation World := (State * list Course.t)%type (only parsing).

(** An asynchronous function over that world, which resolves or rejects. *)
Definition P (A : Type) := World -> result A * World.

Definition resolve {A} (a : A) : P A := fun w => (Ok a, w).

Definition andThen {A B} (m : P A) (k : A -> P B) : P B :=
  fun w =>
    match m w with
    | (Ok a, w') => k a w'
    | (Throw e, w') => (Throw e, w')
    end.

Notation "'let+' x ':=' m 'in' k" := (andThen m (fun x => k))
  (at level 10, x name, m at level 100, k at level 200).
Notation "'do+' m 'in' k" := (andThen m (fun _ => k))
  (at level 10, m at level 100, k at level 200).

(** [await api.f(...)]: the gateway call works on the storage. *)
Definition await {A} (m : M A) : P A :=
  fun w => let '(r, storage) := m (snd w) in (r, (fst w, storage)).

Definition setCourses (cs : list (option Course.t)) : P unit :=
  fun w => (Ok tt, ({| courses := cs;
                       loading := loading (fst w);
                       error := error (fst w) |}, snd w)).

Definition setLoading (b : bool) : P unit :=
  fun w => (Ok tt, ({| courses := courses (fst w);
                       loading := b;
                       error := error (fst w) |}, snd w)).

Definition setError (e : option string) : P unit :=
  fun w => (Ok tt, ({| courses := courses (fst w);
                       loading := loading (fst w);
                       error := e |}, snd w)).

(** [try { body } catch (e) { handler } finally { finalizer }]. *)
Definition tryCatchFinally {A} (body : P A) (handler : ApiError -> P A)
    (finalizer : P unit) : P A :=
  fun w =>
    let '(r, w1) :=
      match body w with
      | (Ok a, w1) => (Ok a, w1)
      | (Throw e, w1) => handler e w1
      end in
    match finalizer w1 with
    | (Ok _, w2) => (r, w2)
    | (Throw e, w2) => (Throw e, w2)
    end.

(** [e.message || fallback]. *)
Definition messageOr (e : ApiError) (fallback : string) : string :=
  if nonEmpty (message e) then message e else fallback.

(** [refresh]: [failure] is the outcome of [Math.random() < 0.05] in
    [getCourses]. *)
Definition refresh (failure : bool) : P unit :=
  do+ setLoading true in
  do+ setError None in
  tryCatchFinally
    (let+ cs := await (getCourses failure) in setCourses (Some <$> cs))
    (fun e => setError (Some (messageOr e "Failed to load courses")))
    (setLoading false).

Definition create (rnd now : string) (data : CourseFormData.t)
    (failure : bool) : P unit :=
  do+ setLoading true in
  do+ setError None in
  tryCatchFinally
    (do+ await (createCourse rnd now data) in refresh failure)
    (fun e => setError (Some (messageOr e "Failed to create course")))
    (setLoading false).

(** [update]: [data] is a [Partial<Course>] and is passed on to
    [updateCourse] as it is. *)
Definition update (now id : string) (data : CoursePatch.t)
    (failure : bool) : P unit :=
  do+ setLoading true in
  do+ setError None in
  tryCatchFinally
    (do+ await (updateCourse now id data) in refresh failure)
    (fun e => setError (Some (messageOr e "Failed to update course")))
    (setLoading false).

Definition remove (id : string) (failure : bool) : P unit :=
  do+ setLoading true in
  do+ setError None in
  tryCatchFinally
    (do+ await (deleteCourse id) in refresh failure)
    (fun e => setError (Some (messageOr e "Failed to delete course")))
    (setLoading false).

(** [reorder]: [setCourses] with the updater of [CourseContext.reorder]. *)
Definition reorder (startIndex endIndex : Z) : P unit :=
  fun w => setCourses
             (CourseContext.reorder startIndex endIndex (courses (fst w))) w.

(** What the state is after the reload that follows a write. *)
Definition reloaded (failure : bool) (st : State) (storage : list Course.t)
  : State :=
  {| courses := if failure then courses st else Some <$> storage;
     loading := false;
     error := if failure then Some "Network error" else None |}.

(** What the state is after a write that the gateway rejected. *)
Definition rejected (e : ApiError) (fallback : string) (st : State) : State :=
  {| courses := courses st;
     loading := false;
     error := Some (messageOr e fallback) |}.

End CourseProvider.

(** ** The handlers of the two pages *)

Module PageHandlers.
Import courseApi CourseListPage.

(** What a handler does besides calling the provider. *)
Inductive Effect :=
| toast (title status : string)
| clearDraft
| navigate (to : string).

(** [try { await call; then... } catch (e) { toast(e.message || fallback) }]
    around a call of the provider. *)
Definition tryToast (call : CourseProvider.P unit) (onSuccess : list Effect)
    (fallback : string)
  : CourseProvider.State * list Course.t
    -> list Effect * (CourseProvider.State * list Course.t) :=
  fun w =>
    match call w with
    | (Ok _, w') => (onSuccess, w')
    | (Throw e, w') =>
        ([toast (CourseProvider.messageOr e fallback) "error"], w')
    end.

(** [handleDelete], [handlePublish] and [handleArchive] of the list page. *)
Definition handleDelete (id : string) (failure : bool) :=
  tryToast (CourseProvider.remove id failure)
           [toast "Course deleted" "success"] "Delete failed".

Definition handlePublish (now id : string) (failure : bool) :=
  tryToast
    (CourseProvider.update now id
       {| CoursePatch.id := None;
          CoursePatch.title := None;
          CoursePatch.description := None;
          CoursePatch.duration := None;
          CoursePatch.status := Some published;
          CoursePatch.createdAt := None;
          CoursePatch.publishedAt := None |} failure)
    [toast "Course published" "success"] "Publish failed".

Definition handleArchive (now id : string) (failure : bool) :=
  tryToast
    (CourseProvider.update now id
       {| CoursePatch.id := None;
          CoursePatch.title := None;
          CoursePatch.description := None;
          CoursePatch.duration := None;
          CoursePatch.status := Some archived;
          CoursePatch.createdAt := None;
          CoursePatch.publishedAt := None |} failure)
    [toast "Course archived" "success"] "Archive failed".

(** [onSubmit] of the form page; [edited] is the course when the page
    edits one. *)
Definition onSubmit (edited : option Course.t) (rnd now : string)
    (data : CourseFormData.t) (failure : bool) :=
  match edited with
  | Some course =>
      tryToast
        (CourseProvider.update now (Course.id course)
           {| CoursePatch.id := None;
              CoursePatch.title := Some (CourseFormData.title data);
              CoursePatch.description :=
                Some <$> CourseFormData.description data;
              CoursePatch.duration := Some (CourseFormData.duration data);
              CoursePatch.status := None;
              CoursePatch.createdAt := None;
              CoursePatch.publishedAt := None |} failure)
        [toast "Course updated" "success"; navigate "/"] "Save failed"
  | None =>
      tryToast (CourseProvider.create rnd now data failure)
        [clearDraft; toast "Course created" "success"; navigate "/"]
        "Save failed"
  end.

(** [hasAdvancedFilters], [handleToggleAdvancedFilters] and
    [clearAdvancedFilters] of the list page. *)
Definition hasAdvancedFilters (filters : FilterState) : bool :=
  nonEmpty (start (dateRange filters))
  || nonEmpty (end_ (dateRange filters))
  || nonEmpty (min (durationRange filters))
  || nonEmpty (max (durationRange filters)).

Definition handleToggleAdvancedFilters (prev : FilterState) : FilterState :=
  {| status := status prev;
     search := search prev;
     sortBy := sortBy prev;
     sortOrder := sortOrder prev;
     view := view prev;
     showAdvancedFilters := negb (showAdvancedFilters prev);
     dateRange := dateRange prev;
     durationRange := durationRange prev |}.

Definition clearAdvancedFilters (prev : FilterState) : FilterState :=
  {| status := status prev;
     search := search prev;
     sortBy := sortBy prev;
     sortOrder := sortOrder prev;
     view := view prev;
     showAdvancedFilters := showAdvancedFilters prev;
     dateRange := {| start := ""; end_ := "" |};
     durationRange := {| min := ""; max := "" |} |}.

Section Predicate.
Context {rt : JsRuntime}.

(** The conjunction of the filters that are switched on. *)
Definition passes (filters : FilterState) (c : Course.t) : bool :=
  (bool_decide (status filters = "all")
   || bool_decide (statusName (Course.status c) = status filters))
  && (negb (nonEmpty (search filters))
      || includes (toLowerCase (Course.title c))
                  (toLowerCase (search filters)))
  && (negb (nonEmpty (start (dateRange filters)))
      || num_ge (dateValue (Course.createdAt c))
                (dateValue (start (dateRange filters))))
  && (negb (nonEmpty (end_ (dateRange filters)))
      || num_le (dateValue (Course.createdAt c))
                (endOfDay <$> dateValue (end_ (dateRange filters))))
  && (negb (nonEmpty (min (durationRange filters)))
      || num_ge (Some (Course.duration c))
                (parseInt (min (durationRange filters))))
  && (negb (nonEmpty (max (durationRange filters)))
      || num_le (Some (Course.duration c))
                (parseInt (max (durationRange filters)))).

End Predicate.

End PageHandlers.

(** ** Durations for display, [src/utils/formatDuration.ts] *)

Module Utils.

(** A number in a template literal, for an integer: its decimal digits
    behind a minus sign if it is negative. *)
Definition numberToString (n : Z) : string :=
  NilZero.string_of_int (Z.to_int n).

(** [String.prototype.trim], over the same white space as [trimStart]. *)
Fixpoint trimEnd (s : string) : string :=
  match s with
  | EmptyString => EmptyString
  | String c rest =>
      match trimEnd rest with
      | EmptyString => if isWhiteSpace c then EmptyString
                       else String c EmptyString
      | trimmed => String c trimmed
      end
  end.

Definition trim (s : string) : string := trimEnd (trimStart s).

(** [formatDuration]: [Math.floor(minutes / 60)] rounds down and [%] takes
    the sign of [minutes]. *)
Definition formatDuration (minutes : Z) : string :=
  let h := minutes / 60 in
  let m := Z.rem minutes 60 in
  let hours : string :=
    if h >? 0
    then (numberToString h ++ " hour" ++ (if h >? 1 then "s" else "")
          ++ " ")%string
    else "" in
  let plural : string := if negb (m =? 1) then "s" else "" in
  trim (hours ++ numberToString m ++ " minute" ++ plural)%string.

End Utils.

(** * Properties of the gateway *)

Section Gateway.
Import courseApi Lifecycle.

Lemma updateCourse_unfold now id data (courses : list Course.t) :
  updateCourse now id data courses =
    match findIndex id courses with
    | None => (Throw NotFoundError, courses)
    | Some (idx, course) =>
        if bool_decide (Course.status course = archived)
        then (Throw EditForbiddenError, courses)
        else (Ok (updated now course data),
              <[idx := updated now course data]> courses)
    end.
Proof.
  unfold updateCourse, bind, getCoursesFromStorage; simpl.
  destruct (findIndex id courses) as [[idx course]|]; [|reflexivity].
  destruct (bool_decide (Course.status course = archived)); reflexivity.
Qed.

Lemma findIndex_Some id (courses : list Course.t) idx course :
  findIndex id courses = Some (idx, course) ->
  courses !! idx = Some course /\ Course.id course = id.
Proof.
  unfold findIndex. intros H%list_find_Some. tauto.
Qed.

(** With unique identifiers, looking a stored course up by its identifier
    finds that very course. *)
Lemma findIndex_unique (courses : list Course.t) (C : Course.t) :
  NoDup (Course.id <$> courses) -> C ∈ courses ->
  exists idx, findIndex (Course.id C) courses = Some (idx, C).
Proof.
  intros Hnd [i Hi]%list_elem_of_lookup.
  destruct (findIndex (Course.id C) courses) as [[j c]|] eqn:Hf.
  - exists j. f_equal. f_equal.
    apply list_find_Some in Hf as (Hj & Hid & _).
    assert (i = j) as ->.
    { apply (NoDup_lookup _ _ _ (Course.id C) Hnd);
        rewrite list_lookup_fmap; [rewrite Hi | rewrite Hj]; simpl;
        congruence. }
    congruence.
  - apply list_find_None in Hf. rewrite Forall_forall in Hf.
    exfalso. apply (Hf C); [eapply list_elem_of_lookup_2; eauto | done].
Qed.

(** The edit gate looks at the first stored course that carries the
    identifier. *)
Lemma updateCourse_archived_first now id data (courses : list Course.t)
    idx course :
  findIndex id courses = Some (idx, course) ->
  Course.status course = archived ->
  updateCourse now id data courses = (Throw EditForbiddenError, courses).
Proof.
  intros Hf Ha. rewrite updateCourse_unfold, Hf.
  by rewrite bool_decide_eq_true_2.
Qed.

Lemma updateCourse_Ok_inv now id data (courses courses' : list Course.t) c' :
  updateCourse now id data courses = (Ok c', courses') ->
  exists idx c,
    findIndex id courses = Some (idx, c)
    /\ Course.status c <> archived
    /\ c' = updated now c data
    /\ courses' = <[idx := c']> courses.
Proof.
  rewrite updateCourse_unfold.
  destruct (findIndex id courses) as [[idx c]|] eqn:Hf; [|discriminate].
  case_bool_decide as Ha; [discriminate|].
  intros [= <- <-]. eauto 8.
Qed.

(** A request leaves every position but the updated one alone. *)
Lemma updateCourse_storage now id data (courses : list Course.t) :
  snd (updateCourse now id data courses) = courses
  \/ exists idx c,
       findIndex id courses = Some (idx, c)
       /\ Course.status c <> archived
       /\ snd (updateCourse now id data courses)
          = <[idx := updated now c data]> courses.
Proof.
  rewrite updateCourse_unfold.
  destruct (findIndex id courses) as [[idx c]|] eqn:Hf; [|by left].
  case_bool_decide as Ha; [by left|]. right. eauto.
Qed.

Lemma createCourse_storage rnd now data (courses : list Course.t) :
  snd (createCourse rnd now data courses) = courses
  \/ exists c, fresh c
       /\ snd (createCourse rnd now data courses) = courses ++ [c].
Proof.
  unfold createCourse.
  destruct (_ || _); [by left|]. right.
  eexists. split; [|reflexivity]. by split.
Qed.

(** Without a [publishedAt] in the data, the course is stamped when the
    data asks for [published] and the course has no [publishedAt]. *)
Lemma updated_publishedAt now c data :
  CoursePatch.publishedAt data = None ->
  Course.publishedAt (updated now c data) =
    if bool_decide (CoursePatch.status data = Some published)
       && negb (truthy (Course.publishedAt c))
    then Some now else Course.publishedAt c.
Proof.
  intros Hp. unfold updated. simpl. rewrite Hp. simpl.
  destruct (_ && _); simpl; by rewrite ?Hp.
Qed.

Lemma updated_status now c data :
  Course.status (updated now c data)
  = default (Course.status c) (CoursePatch.status data).
Proof. unfold updated. simpl. by destruct (_ && _). Qed.

Lemma updated_id now c data :
  Course.id (updated now c data)
  = default (Course.id c) (CoursePatch.id data).
Proof. unfold updated. simpl. by destruct (_ && _). Qed.

Lemma updated_createdAt now c data :
  Course.createdAt (updated now c data)
  = default (Course.createdAt c) (CoursePatch.createdAt data).
Proof. unfold updated. simpl. by destruct (_ && _). Qed.

(** The first course that carries the identifier of the course in position
    [i] is that course, when no course before it carries the identifier. *)
Lemma findIndex_first (courses : list Course.t) (i : nat) (C : Course.t) :
  courses !! i = Some C ->
  (forall j x, courses !! j = Some x -> (j < i)%nat ->
               Course.id x <> Course.id C) ->
  findIndex (Course.id C) courses = Some (i, C).
Proof.
  intros Hi Hfirst. unfold findIndex. apply list_find_Some.
  split; [done|]. split; [done|]. exact Hfirst.
Qed.

End Gateway.

Section GatewayClaims.
Import courseApi Lifecycle.

(** C1, counterexample.  The edit gate looks at the first stored course
    that carries the identifier.  When a draft with the identifier of an
    archived course stands before it, an update addressed to that
    identifier succeeds and changes the stored collection. *)
Lemma archived_course_behind_duplicate_id :
  Sample.legacyCourse ∈ [Sample.legacyDraft; Sample.legacyCourse]
  /\ Course.status Sample.legacyCourse = archived
  /\ updateCourse "2024-02-01T00:00:00Z" (Course.id Sample.legacyCourse)
       (Sample.setTitle "Renamed") [Sample.legacyDraft; Sample.legacyCourse]
     = (Ok {| Course.id := "4";
              Course.title := "Renamed";
              Course.description := None;
              Course.duration := 45;
              Course.status := draft;
              Course.createdAt := "2024-01-08T00:00:00Z";
              Course.publishedAt := None |},
        [{| Course.id := "4";
            Course.title := "Renamed";
            Course.description := None;
            Course.duration := 45;
            Course.status := draft;
            Course.createdAt := "2024-01-08T00:00:00Z";
            Course.publishedAt := None |};
         Sample.legacyCourse]).
Proof.
  split; [|split; reflexivity].
  apply (bool_decide_unpack _). vm_compute. reflexivity.
Qed.

(** C1, amended.  Edit gate: an update addressed to the identifier of a
    stored course with status [archived] that no course with the same
    identifier precedes in the collection throws the archived-edit error
    (status 403), whatever the fields in [data], and the stored collection
    after the failed call is the one before it.  In a collection whose
    identifiers are unique, the invariant of the data model, this is so
    for every archived course. *)
Theorem updateCourse_archived_forbidden
    (now : string) (data : CoursePatch.t)
    (courses : list Course.t) (C : Course.t) :
  Course.status C = archived ->
  (forall i,
      courses !! i = Some C ->
      (forall j x, courses !! j = Some x -> (j < i)%nat ->
                   Course.id x <> Course.id C) ->
      updateCourse now (Course.id C) data courses
      = (Throw EditForbiddenError, courses))
  /\ (NoDup (Course.id <$> courses) ->
      C ∈ courses ->
      updateCourse now (Course.id C) data courses
      = (Throw EditForbiddenError, courses)).
Proof.
  intros Ha. split.
  - intros i Hi Hfirst.
    eapply updateCourse_archived_first; [|exact Ha].
    by apply findIndex_first.
  - intros Hnd Hin.
    destruct (findIndex_unique courses C Hnd Hin) as [idx Hf].
    eapply updateCourse_archived_first; eauto.
Qed.

Lemma updateCourse_archived_forbidden_witness :
  Course.status Sample.legacyCourse = archived
  /\ [Sample.reactFundamentals; Sample.legacyCourse] !! 1%nat
     = Some Sample.legacyCourse
  /\ NoDup (Course.id <$> [Sample.reactFundamentals; Sample.legacyCourse])
  /\ updateCourse "2024-02-01T00:00:00Z" "4" (Sample.setTitle "Renamed")
       [Sample.reactFundamentals; Sample.legacyCourse]
     = (Throw (mkError 403 "Cannot edit archived course"),
        [Sample.reactFundamentals; Sample.legacyCourse]).
Proof.
  assert (Hnd : NoDup (Course.id <$>
                         [Sample.reactFundamentals; Sample.legacyCourse])).
  { apply (bool_decide_unpack _). vm_compute. reflexivity. }
  split; [reflexivity|]. split; [reflexivity|]. split; [exact Hnd|].
  destruct (updateCourse_archived_forbidden
              "2024-02-01T00:00:00Z" (Sample.setTitle "Renamed")
              [Sample.reactFundamentals; Sample.legacyCourse]
              Sample.legacyCourse eq_refl) as [Hfirst _].
  apply (Hfirst 1%nat eq_refl).
  intros [|[|j]] x Hx Hlt; [|lia..].
  injection Hx as <-. simpl. discriminate.
Defined.

(** C9.  [createCourse] throws the validation error (status 400) exactly
    when the submitted title is empty or the submitted duration is at
    most 0, and then stores nothing; otherwise it returns a course that
    carries the submitted fields, the generated identifier, status
    [draft], the clock reading as [createdAt] and no [publishedAt], and
    the stored collection is the previous one with that course appended. *)
Theorem createCourse_validation
    (rnd now : string) (data : CourseFormData.t) (courses : list Course.t) :
  (createCourse rnd now data courses = (Throw ValidationError, courses)
   <-> CourseFormData.title data = "" \/ CourseFormData.duration data <= 0)
  /\ (forall e s', createCourse rnd now data courses = (Throw e, s') ->
                   e = ValidationError /\ s' = courses)
  /\ (~ (CourseFormData.title data = "" \/ CourseFormData.duration data <= 0)
      -> exists c,
           createCourse rnd now data courses = (Ok c, courses ++ [c])
           /\ Course.id c = rnd
           /\ Course.title c = CourseFormData.title data
           /\ Course.description c = CourseFormData.description data
           /\ Course.duration c = CourseFormData.duration data
           /\ Course.status c = draft
           /\ Course.createdAt c = now
           /\ Course.publishedAt c = None).
Proof.
  unfold createCourse, bind, getCoursesFromStorage, saveCoursesToStorage,
    ret, throw, ValidationError.
  destruct (bool_decide (CourseFormData.title data = "")) eqn:Ht;
    destruct (CourseFormData.duration data <=? 0) eqn:Hd; simpl;
    [apply bool_decide_eq_true in Ht | apply bool_decide_eq_true in Ht
    | apply bool_decide_eq_false in Ht | apply bool_decide_eq_false in Ht];
    [apply Z.leb_le in Hd | apply Z.leb_gt in Hd
    | apply Z.leb_le in Hd | apply Z.leb_gt in Hd].
  1-3: (split; [split; [intros _; tauto | reflexivity] |];
        split; [intros e s' [= <- <-]; done | intros Hn; tauto]).
  split; [split; [discriminate | intros [?|?]; [done | lia]]|].
  split; [discriminate|].
  intros _. eexists. repeat split.
Qed.

Lemma createCourse_validation_witness :
  createCourse "k3x9q2m1a" "2024-02-01T00:00:00Z" Sample.newCourse
    [Sample.reactFundamentals]
  = (Ok {| Course.id := "k3x9q2m1a";
           Course.title := "New Course";
           Course.description := Some "Test";
           Course.duration := 60;
           Course.status := draft;
           Course.createdAt := "2024-02-01T00:00:00Z";
           Course.publishedAt := None |},
     [Sample.reactFundamentals;
      {| Course.id := "k3x9q2m1a";
         Course.title := "New Course";
         Course.description := Some "Test";
         Course.duration := 60;
         Course.status := draft;
         Course.createdAt := "2024-02-01T00:00:00Z";
         Course.publishedAt := None |}]).
Proof.
  destruct (createCourse_validation "k3x9q2m1a" "2024-02-01T00:00:00Z"
              Sample.newCourse [Sample.reactFundamentals])
    as (_ & _ & Hok).
  destruct Hok as (c & Hc & Hid & Ht & Hde & Hdu & Hs & Hca & Hp).
  { simpl. intros [H|H]; [discriminate H | lia]. }
  rewrite Hc. destruct c; simpl in *. subst. reflexivity.
Defined.

(** C10, counterexample.  The spread copies every property of [data]: an
    update whose data holds [id] and [createdAt] replaces both in the
    stored course, here by the identifier of the other stored course. *)
Lemma update_overwrites_id_and_createdAt :
  updateCourse "2024-02-01T00:00:00Z" "1"
    (Sample.setIdentity "2" "2030-01-01T00:00:00Z")
    [Sample.reactFundamentals; Sample.advancedTypeScript]
  = (Ok {| Course.id := "2";
           Course.title := "React Fundamentals";
           Course.description := Some "Learn React basics";
           Course.duration := 120;
           Course.status := draft;
           Course.createdAt := "2030-01-01T00:00:00Z";
           Course.publishedAt := None |},
     [{| Course.id := "2";
         Course.title := "React Fundamentals";
         Course.description := Some "Learn React basics";
         Course.duration := 120;
         Course.status := draft;
         Course.createdAt := "2030-01-01T00:00:00Z";
         Course.publishedAt := None |};
      Sample.advancedTypeScript]).
Proof. reflexivity. Qed.

(** C10, amended.  A successful [updateCourse] changes one position of
    the stored array, that of the first course with the identifier, and
    nothing else: length and order are kept and every other position (in
    particular every course with another identifier) holds what it held.
    In the target a field absent from [data] is kept, so the identifier
    and [createdAt] are kept when [data] holds neither; [publishedAt],
    when absent from [data], is kept or becomes the clock reading. *)
Theorem updateCourse_frame
    (now id : string) (data : CoursePatch.t)
    (courses courses' : list Course.t) (c' : Course.t) :
  updateCourse now id data courses = (Ok c', courses') ->
  exists idx c,
    courses !! idx = Some c
    /\ Course.id c = id
    /\ (forall j x, courses !! j = Some x -> (j < idx)%nat -> Course.id x <> id)
    /\ courses' = <[idx := c']> courses
    /\ courses' !! idx = Some c'
    /\ length courses' = length courses
    /\ (forall j, j <> idx -> courses' !! j = courses !! j)
    /\ (forall j x, courses !! j = Some x -> Course.id x <> id ->
                    courses' !! j = Some x)
    /\ (CoursePatch.id data = None -> Course.id c' = Course.id c)
    /\ (CoursePatch.createdAt data = None ->
        Course.createdAt c' = Course.createdAt c)
    /\ (CoursePatch.title data = None -> Course.title c' = Course.title c)
    /\ (CoursePatch.description data = None ->
        Course.description c' = Course.description c)
    /\ (CoursePatch.duration data = None ->
        Course.duration c' = Course.duration c)
    /\ (CoursePatch.status data = None -> Course.status c' = Course.status c)
    /\ (CoursePatch.publishedAt data = None ->
        Course.publishedAt c' = Course.publishedAt c
        \/ Course.publishedAt c' = Some now).
Proof.
  intros (idx & c & Hf & Hna & -> & ->)%updateCourse_Ok_inv.
  destruct (findIndex_Some _ _ _ _ Hf) as [Hidx Hid].
  exists idx, c.
  assert (Hlt : (idx < length courses)%nat) by (eapply lookup_lt_Some; eauto).
  split; [done|]. split; [done|].
  split.
  { unfold findIndex in Hf. apply list_find_Some in Hf as (_ & _ & Hmin).
    exact Hmin. }
  split; [done|].
  split; [by apply list_lookup_insert_eq|].
  split; [by rewrite length_insert|].
  split; [intros j Hj; by apply list_lookup_insert_ne|].
  split.
  { intros j x Hj Hx. rewrite list_lookup_insert_ne; [done|].
    intros ->. congruence. }
  unfold updated.
  destruct (_ && _); simpl;
    repeat split; try (intros ->; reflexivity);
    intros Hp; rewrite ?Hp; simpl; auto.
Qed.

Lemma updateCourse_frame_witness :
  exists idx c,
    [Sample.reactFundamentals; Sample.advancedTypeScript] !! idx = Some c
    /\ Course.id c = "1"
    /\ Course.title c = "React Fundamentals"
    /\ Course.createdAt c = "2024-01-01T00:00:00Z".
Proof.
  destruct (updateCourse_frame "2024-02-01T00:00:00Z" "1"
              (Sample.setTitle "Updated Course")
              [Sample.reactFundamentals; Sample.advancedTypeScript]
              _ _ eq_refl)
    as (idx & c & Hl & Hid & _).
  exists idx, c. split; [exact Hl|]. split; [exact Hid|].
  destruct idx as [|[|idx]]; simpl in Hl; inversion Hl; subst;
    simpl in *; try discriminate; split; reflexivity.
Defined.

(** C4.  [updateCourse] applies no field validation: on the draft course
    of the test suite an update that sets the title to the empty string
    and the duration to 0 succeeds and stores both values, while
    [createCourse] rejects the same title and duration. *)
Theorem updateCourse_accepts_invalid_fields :
  let data := {| CoursePatch.id := None;
                 CoursePatch.title := Some "";
                 CoursePatch.description := None;
                 CoursePatch.duration := Some 0;
                 CoursePatch.status := None;
                 CoursePatch.createdAt := None;
                 CoursePatch.publishedAt := None |} in
  let stored := {| Course.id := "1";
                   Course.title := "";
                   Course.description := Some "Learn React basics";
                   Course.duration := 0;
                   Course.status := draft;
                   Course.createdAt := "2024-01-01T00:00:00Z";
                   Course.publishedAt := None |} in
  updateCourse "2024-02-01T00:00:00Z" "1" data [Sample.reactFundamentals]
  = (Ok stored, [stored])
  /\ createCourse "k3x9q2m1a" "2024-02-01T00:00:00Z"
       {| CourseFormData.title := ""; CourseFormData.description := None;
          CourseFormData.duration := 0 |} [Sample.reactFundamentals]
     = (Throw ValidationError, [Sample.reactFundamentals]).
Proof. split; reflexivity. Qed.

End GatewayClaims.

(** * The lifecycle along sequences of writes *)

Section LifecycleFacts.
Import courseApi Lifecycle.

Lemma run_snoc ops op (s : Storage) :
  run (ops ++ [op]) s = apply op (run ops s).
Proof. unfold run. by rewrite foldl_snoc. Qed.

Lemma run_app ops1 ops2 (s : Storage) :
  run (ops1 ++ ops2) s = run ops2 (run ops1 s).
Proof. unfold run. by rewrite foldl_app. Qed.

(** What a position of the storage can hold after one request: what it
    held, a fresh course in a position that did not exist, or the update
    of a course that was not archived. *)
Lemma apply_lookup_inv op (s : Storage) i c' :
  apply op s !! i = Some c' ->
  s !! i = Some c'
  \/ (s !! i = None /\ fresh c')
  \/ (exists id c data,
        op = Update (clock op) id data
        /\ s !! i = Some c
        /\ Course.status c <> archived
        /\ c' = updated (clock op) c data).
Proof.
  destruct op as [rnd now data | now id data]; cbn [apply clock].
  - destruct (createCourse_storage rnd now data s) as [-> | (c & Hc & ->)];
      [by left|].
    intros [[_ Hi] | [-> <-]]%lookup_snoc_Some; [by left | right; left].
    split; [|done]. by apply lookup_ge_None_2.
  - destruct (updateCourse_storage now id data s)
      as [-> | (idx & c & Hf & Hna & ->)]; [by left|].
    destruct (findIndex_Some _ _ _ _ Hf) as [Hidx _].
    destruct (decide (idx = i)) as [-> | Hne].
    + rewrite list_lookup_insert_eq by (eapply lookup_lt_Some; eauto).
      intros [= <-]. right; right. eauto 8.
    + rewrite list_lookup_insert_ne by done. by left.
Qed.

Lemma apply_length op (s : Storage) :
  (length s <= length (apply op s))%nat.
Proof.
  destruct op as [rnd now data | now id data]; cbn [apply clock].
  - destruct (createCourse_storage rnd now data s) as [-> | (c & _ & ->)];
      [done|]. rewrite length_app. lia.
  - destruct (updateCourse_storage now id data s)
      as [-> | (idx & c & _ & _ & ->)]; [done|].
    by rewrite length_insert.
Qed.

Lemma run_length ops (s : Storage) :
  (length s <= length (run ops s))%nat.
Proof.
  induction ops as [|op ops IH] using rev_ind; [done|].
  rewrite run_snoc. etrans; [exact IH | apply apply_length].
Qed.

Lemma run_take_length k ops (s : Storage) :
  (length (run (take k ops) s) <= length (run ops s))%nat.
Proof.
  rewrite <- (take_drop k ops) at 2. rewrite run_app. apply run_length.
Qed.

(** An archived course is never written again. *)
Lemma apply_archived op (s : Storage) i c :
  s !! i = Some c -> Course.status c = archived ->
  apply op s !! i = Some c.
Proof.
  intros Hi Ha.
  destruct op as [rnd now data | now id data]; cbn [apply clock].
  - destruct (createCourse_storage rnd now data s) as [-> | (x & _ & ->)];
      [done|].
    rewrite lookup_app_l; [done | eapply lookup_lt_Some; eauto].
  - destruct (updateCourse_storage now id data s)
      as [-> | (idx & x & Hf & Hna & ->)]; [done|].
    destruct (findIndex_Some _ _ _ _ Hf) as [Hidx _].
    rewrite list_lookup_insert_ne; [done|]. intros ->. congruence.
Qed.

Lemma everPublished_snoc ops op (s0 : Storage) i c' :
  run (ops ++ [op]) s0 !! i = Some c' ->
  everPublished (ops ++ [op]) s0 i
  <-> everPublished ops s0 i \/ Course.status c' = published.
Proof.
  intros Hc'. unfold everPublished. rewrite length_app. simpl. split.
  - intros (k & c & Hk & Hl & Hp).
    destruct (decide (k <= length ops)%nat) as [Hle | Hgt].
    + left. exists k, c. by rewrite take_app_le in Hl.
    + right. rewrite take_ge in Hl by (rewrite length_app; simpl; lia).
      congruence.
  - intros [(k & c & Hk & Hl & Hp) | Hp].
    + exists k, c. rewrite take_app_le by done.
      split; [lia | done].
    + exists (length ops + 1)%nat, c'.
      rewrite take_ge by (rewrite length_app; simpl; lia).
      split; [lia | done].
Qed.

Lemma everPublished_now ops (s0 : Storage) i c :
  run ops s0 !! i = Some c -> Course.status c = published ->
  everPublished ops s0 i.
Proof.
  intros Hl Hp. exists (length ops), c. by rewrite take_ge.
Qed.

Lemma publishedAt_iff_everPublished ops (s0 : Storage) :
  Forall (fun op => clock op <> "") ops ->
  Forall leavesPublishedAt ops ->
  Forall fresh s0 ->
  forall i c, run ops s0 !! i = Some c ->
    truthy (Course.publishedAt c) = true <-> everPublished ops s0 i.
Proof.
  intros Hclock Hleaves Hfresh.
  induction ops as [|op ops IH] using rev_ind; intros i c Hc.
  - simpl in Hc.
    destruct (proj1 (Forall_lookup _ _) Hfresh i c Hc) as [Hd Hn].
    rewrite Hn. simpl. split; [discriminate|].
    intros (k & x & Hk & Hl & Hp). simpl in Hk.
    replace k with 0%nat in Hl by lia. simpl in Hl. congruence.
  - apply Forall_app in Hclock as [Hclock Hop].
    apply Forall_app in Hleaves as [Hleaves Hleave].
    rewrite Forall_singleton in Hop. rewrite Forall_singleton in Hleave.
    specialize (IH Hclock Hleaves).
    rewrite (everPublished_snoc _ _ _ _ _ Hc).
    rewrite run_snoc in Hc.
    destruct (apply_lookup_inv _ _ _ _ Hc)
      as [Hsame | [[Hnone Hf] | (id & x & data & Hop' & Hx & Hna & ->)]].
    + rewrite (IH i c Hsame). split; [by left|].
      intros [H | H]; [done | by eapply everPublished_now].
    + destruct Hf as [Hd Hn]. rewrite Hn, Hd. simpl.
      split; [discriminate|]. intros [(k & x & Hk & Hl & Hp) | ?]; [|done].
      exfalso. apply lookup_lt_Some in Hl. apply lookup_ge_None in Hnone.
      pose proof (run_take_length k ops s0). lia.
    + rewrite Hop' in Hleave. simpl in Hleave.
      rewrite updated_publishedAt by done. rewrite updated_status.
      specialize (IH i x Hx).
      destruct (CoursePatch.status data) as [[| |]|] eqn:Hs; simpl.
      * rewrite IH. split; [by left | intros [?|?]; done].
      * destruct (truthy (Course.publishedAt x)) eqn:Ht; simpl.
        -- split; [by right | by rewrite Ht].
        -- split; [by right|]. intros _.
           by rewrite bool_decide_eq_false_2.
      * rewrite IH. split; [by left | intros [?|?]; done].
      * rewrite IH. split; [by left|].
        intros [H | H]; [done | by eapply everPublished_now].
Qed.

Lemma pageRequest_not_draft op :
  Pages.pageRequest op -> Pages.requestsDraft op = false.
Proof. intros [now id | now id | [c|] rnd now data]; reflexivity. Qed.

(** The requests of the pages hold the fields of the form or a status,
    and nothing else. *)
Lemma pageRequest_leaves op :
  Pages.pageRequest op -> leavesPublishedAt op /\ leavesIdentity op.
Proof. intros [now id | now id | [c|] rnd now data]; by repeat split. Qed.

(** A request that does not ask for [draft] makes no draft of a course
    that is none. *)
Lemma apply_not_draft op (s : list Course.t) i :
  Pages.requestsDraft op = false ->
  (exists c, s !! i = Some c /\ Course.status c <> draft) ->
  exists c', apply op s !! i = Some c' /\ Course.status c' <> draft.
Proof.
  intros Hreq (c & Hi & Hnd).
  destruct (lookup_lt_is_Some_2 (apply op s) i) as [c' Hc'].
  { pose proof (apply_length op s). apply lookup_lt_Some in Hi. lia. }
  exists c'. split; [done|].
  destruct (apply_lookup_inv _ _ _ _ Hc')
    as [Hsame | [[Hnone _] | (id & x & data & Hop & Hx & _ & ->)]].
  - congruence.
  - congruence.
  - rewrite updated_status. rewrite Hop in Hreq. simpl in Hreq.
    apply bool_decide_eq_false in Hreq.
    assert (x = c) as -> by congruence.
    destruct (CoursePatch.status data) as [st|]; simpl; congruence.
Qed.

End LifecycleFacts.

Section LifecycleClaims.
Import courseApi Lifecycle.




(** C3, counterexample.  [updateCourse] checks no transition other than
    the edit gate: an update that carries status [draft], addressed to the
    published course of the test suite, succeeds and stores the course as a
    draft. *)
Lemma published_course_returns_to_draft :
  Course.status Sample.advancedTypeScript = published
  /\ updateCourse "2024-02-01T00:00:00Z" "2" (Sample.setStatus draft)
       [Sample.reactFundamentals; Sample.advancedTypeScript]
     = (Ok {| Course.id := "2";
              Course.title := "Advanced TypeScript";
              Course.description := Some "Master TypeScript";
              Course.duration := 180;
              Course.status := draft;
              Course.createdAt := "2024-01-02T00:00:00Z";
              Course.publishedAt := Some "2024-01-03T00:00:00Z" |},
        [Sample.reactFundamentals;
         {| Course.id := "2";
            Course.title := "Advanced TypeScript";
            Course.description := Some "Master TypeScript";
            Course.duration := 180;
            Course.status := draft;
            Course.createdAt := "2024-01-02T00:00:00Z";
            Course.publishedAt := Some "2024-01-03T00:00:00Z" |}]).
Proof. split; reflexivity. Qed.

(** C3, amended.  [archived] is terminal: along every sequence of create
    and update requests, successful or not, a stored course whose status
    is [archived] keeps its status and every other field.  And a course
    returns to [draft] only when a request asks for it: along every
    sequence of create and update requests none of which holds status
    [draft], a stored course that has left [draft] does not return to it.
    No request that the pages issue (publish, archive, the form's create
    and edit) holds status [draft]. *)
Theorem no_reverse_transition_without_draft_request :
  (forall (ops : list Op) (s : list Course.t) (i : nat) (c : Course.t),
      s !! i = Some c ->
      Course.status c = archived ->
      run ops s !! i = Some c)
  /\ (forall (ops : list Op) (s : list Course.t) (i : nat) (c : Course.t),
         Forall (fun op => Pages.requestsDraft op = false) ops ->
         s !! i = Some c ->
         Course.status c <> draft ->
         exists c', run ops s !! i = Some c' /\ Course.status c' <> draft)
  /\ (forall op, Pages.pageRequest op -> Pages.requestsDraft op = false).
Proof.
  split; [|split].
  - intros ops s i c Hi Ha.
    induction ops as [|op ops IH] using rev_ind; [done|].
    rewrite run_snoc. by apply apply_archived.
  - intros ops s i c Hreq Hi Hnd.
    induction ops as [|op ops IH] using rev_ind; [by exists c|].
    apply Forall_app in Hreq as [Hreq Hop].
    rewrite Forall_singleton in Hop.
    destruct (IH Hreq) as (c1 & Hc1 & Hnd1).
    rewrite run_snoc.
    apply (apply_not_draft op); [done | eauto].
  - apply pageRequest_not_draft.
Qed.

Lemma no_reverse_transition_without_draft_request_witness :
  run [Update "2024-02-01T00:00:00Z" "4" (Sample.setStatus draft);
       Create "k3x9q2m1a" "2024-02-02T00:00:00Z" Sample.newCourse;
       Update "2024-02-03T00:00:00Z" "4" (Sample.setTitle "Renamed")]
      [Sample.reactFundamentals; Sample.legacyCourse] !! 1%nat
  = Some Sample.legacyCourse
  /\ exists c',
       run [Update "2024-02-01T00:00:00Z" "2" (Sample.setStatus archived);
            Update "2024-02-02T00:00:00Z" "1" (Sample.setTitle "Renamed");
            Pages.onSubmit (Some Sample.reactFundamentals) "k3x9q2m1a"
              "2024-02-03T00:00:00Z" Sample.newCourse]
           [Sample.reactFundamentals; Sample.advancedTypeScript] !! 1%nat
       = Some c'
       /\ Course.status c' <> draft.
Proof.
  destruct no_reverse_transition_without_draft_request
    as (Hterminal & Hrequests & _).
  split.
  - apply (Hterminal _ [Sample.reactFundamentals; Sample.legacyCourse]
             1%nat Sample.legacyCourse); reflexivity.
  - apply (Hrequests _ [Sample.reactFundamentals; Sample.advancedTypeScript]
             1%nat Sample.advancedTypeScript).
    + repeat constructor.
    + reflexivity.
    + simpl. discriminate.
Defined.

End LifecycleClaims.

(** * Properties of the list engine *)

Section SortFacts.
Context {A : Type}.
Variable comparefn : A -> A -> num.

Lemma sortInsert_perm x l : sortInsert comparefn x l ≡ₚ x :: l.
Proof.
  induction l as [|y l IH]; simpl; [done|].
  destruct (SortCompare comparefn x y >? 0); [|done].
  rewrite IH. apply Permutation_swap.
Qed.

Lemma stableSort_perm l : stableSort comparefn l ≡ₚ l.
Proof.
  induction l as [|x l IH]; simpl; [done|].
  rewrite sortInsert_perm. by rewrite IH.
Qed.

(** Selecting from the array commutes with sorting it, when the comparator
    puts no selected element strictly behind another. *)
Lemma sortInsert_select (P : A -> bool) x l :
  (forall a b, P a = true -> P b = true -> SortCompare comparefn a b <= 0) ->
  List.filter P (sortInsert comparefn x l) = List.filter P (x :: l).
Proof.
  intros Hties. induction l as [|y l IH]; [done|].
  cbn [sortInsert].
  destruct (SortCompare comparefn x y >? 0) eqn:Hgt; [|done].
  apply Z.gtb_lt in Hgt.
  cbn [List.filter] in *. rewrite IH.
  destruct (P y) eqn:Hy, (P x) eqn:Hx; try done.
  pose proof (Hties x y Hx Hy). lia.
Qed.

Lemma stableSort_select (P : A -> bool) l :
  (forall a b, P a = true -> P b = true -> SortCompare comparefn a b <= 0) ->
  List.filter P (stableSort comparefn l) = List.filter P l.
Proof.
  intros Hties. induction l as [|x l IH]; [done|].
  change (stableSort comparefn (x :: l))
    with (sortInsert comparefn x (stableSort comparefn l)).
  rewrite sortInsert_select by done. cbn [List.filter]. by rewrite IH.
Qed.


(** Each element of the result is followed by one that it does not
    follow in the order of the comparator. *)
Lemma stableSort_sorted (l : list A) :
  (forall x y, SortCompare comparefn x y > 0 ->
               SortCompare comparefn y x <= 0) ->
  Sorted (fun x y => SortCompare comparefn x y <= 0) (stableSort comparefn l).
Proof.
  intros Hanti. induction l as [|a l IH]; [constructor|].
  change (stableSort comparefn (a :: l))
    with (sortInsert comparefn a (stableSort comparefn l)).
  induction IH as [|y rest Hrest IHrest Hhd]; simpl.
  - repeat constructor.
  - destruct (SortCompare comparefn a y >? 0) eqn:Hgt.
    + apply Z.gtb_lt in Hgt. constructor; [exact IHrest|].
      destruct Hhd as [|z rest' Hz]; simpl.
      * constructor. apply Hanti. lia.
      * destruct (SortCompare comparefn a z >? 0); constructor;
          [exact Hz | apply Hanti; lia].
    + constructor; [by constructor|]. constructor.
      destruct (Z.gtb_spec (SortCompare comparefn a y) 0); [done | lia].
Qed.

Section Consistent.
Hypothesis consistent : Consistent comparefn.

Lemma ties_sym x y :
  SortCompare comparefn x y = 0 -> SortCompare comparefn y x = 0.
Proof.
  intros Hxy.
  pose proof (consistent_flip _ consistent x y).
  pose proof (consistent_flip _ consistent y x). lia.
Qed.

Lemma stableSort_strongly_sorted l :
  StronglySorted (fun x y => SortCompare comparefn x y <= 0)
                 (stableSort comparefn l).
Proof.
  apply Sorted_StronglySorted.
  - intros x y z. apply (consistent_trans _ consistent).
  - apply stableSort_sorted. intros x y Hgt.
    apply (consistent_flip _ consistent) in Hgt. lia.
Qed.

(** The sort keeps the order of the elements that tie. *)
Lemma stableSort_ties x l :
  ties comparefn x (stableSort comparefn l) = ties comparefn x l.
Proof.
  apply stableSort_select. intros a b Ha%Z.eqb_eq Hb%Z.eqb_eq.
  apply (consistent_trans _ consistent a x b); [|lia].
  rewrite (ties_sym _ _ Ha). lia.
Qed.

(** Two sorted arrangements of the same elements that list the elements
    of every tie in the same order are equal. *)
Lemma stable_sorted_unique l1 l2 :
  l1 ≡ₚ l2 ->
  StronglySorted (fun x y => SortCompare comparefn x y <= 0) l1 ->
  StronglySorted (fun x y => SortCompare comparefn x y <= 0) l2 ->
  (forall x, ties comparefn x l1 = ties comparefn x l2) ->
  l1 = l2.
Proof.
  revert l2. induction l1 as [|a l1 IH]; intros l2 Hperm Hs1 Hs2 Hties.
  - by apply Permutation_nil_l in Hperm.
  - destruct l2 as [|b l2]; [by apply Permutation_nil_r in Hperm|].
    apply StronglySorted_inv in Hs1 as [Hs1 Ha].
    apply StronglySorted_inv in Hs2 as [Hs2 Hb].
    rewrite List.Forall_forall in Ha, Hb.
    assert (Hab : SortCompare comparefn a b = 0).
    { assert (SortCompare comparefn a b <= 0).
      { assert (b ∈ a :: l1) as Hin by (rewrite Hperm; left).
        apply elem_of_cons in Hin as [-> | Hin].
        - by rewrite (consistent_refl _ consistent).
        - by apply Ha, list_elem_of_In. }
      assert (SortCompare comparefn b a <= 0).
      { assert (a ∈ b :: l2) as Hin by (rewrite <- Hperm; left).
        apply elem_of_cons in Hin as [-> | Hin].
        - by rewrite (consistent_refl _ consistent).
        - by apply Hb, list_elem_of_In. }
      pose proof (consistent_flip _ consistent b a). lia. }
    assert (a = b) as <-.
    { specialize (Hties a). unfold ties in Hties. cbn [List.filter] in Hties.
      rewrite (consistent_refl _ consistent), Hab in Hties.
      simpl in Hties. congruence. }
    f_equal. apply IH; [by eapply Permutation_cons_inv | done | done |].
    intros x. specialize (Hties x). unfold ties in *.
    cbn [List.filter] in Hties.
    destruct (SortCompare comparefn x a =? 0); congruence.
Qed.

(** So the result of [stableSort] is the only one that a stable sort
    can return. *)
Lemma stableSort_unique l l' :
  l' ≡ₚ l ->
  StronglySorted (fun x y => SortCompare comparefn x y <= 0) l' ->
  (forall x, ties comparefn x l' = ties comparefn x l) ->
  l' = stableSort comparefn l.
Proof.
  intros Hperm Hsorted Hties. apply stable_sorted_unique.
  - by rewrite stableSort_perm.
  - done.
  - apply stableSort_strongly_sorted.
  - intros x. by rewrite stableSort_ties.
Qed.

End Consistent.

End SortFacts.

(** * The sample run time is a run time *)

Lemma string_compare_trans (x y z : string) :
  String.compare x y = Lt -> String.compare y z = Lt ->
  String.compare x z = Lt.
Proof.
  revert y z. induction x as [|a x IH]; intros [|b y] [|c z]; simpl; try done.
  unfold Ascii.compare.
  destruct (N.compare_spec (N_of_ascii a) (N_of_ascii b)) as [Eab|Lab|Gab],
           (N.compare_spec (N_of_ascii b) (N_of_ascii c)) as [Ebc|Lbc|Gbc],
           (N.compare_spec (N_of_ascii a) (N_of_ascii c)) as [Eac|Lac|Gac];
    try done; try lia; eauto.
Qed.

Lemma codeUnitCompare_consistent :
  Consistent (fun a b : string => Some (SampleEngine.codeUnitCompare a b)).
Proof.
  assert (Hrefl : forall a, String.compare a a = Eq).
  { intros a. pose proof (String.compare_antisym a a) as Hanti.
    by destruct (String.compare a a). }
  assert (Hcmp : forall a b,
             SortCompare
               (fun a b : string => Some (SampleEngine.codeUnitCompare a b))
               a b
             = match String.compare a b with Eq => 0 | Lt => -1 | Gt => 1 end).
  { intros a b. unfold SortCompare, SampleEngine.codeUnitCompare, String.ltb.
    cbn [default from_option id].
    destruct (decide (a = b)) as [-> | Hne]; [by rewrite Hrefl|].
    destruct (String.compare a b) eqn:E; [|done..].
    by apply String.compare_eq_iff in E. }
  split.
  - intros x. by rewrite Hcmp, Hrefl.
  - intros x y. rewrite !Hcmp, (String.compare_antisym y x).
    destruct (String.compare x y); simpl; lia.
  - intros x y z. rewrite !Hcmp.
    destruct (String.compare x y) eqn:Exy, (String.compare y z) eqn:Eyz;
      try lia; intros _ _.
    + apply String.compare_eq_iff in Exy, Eyz. subst. by rewrite Hrefl.
    + apply String.compare_eq_iff in Exy. subst. by rewrite Eyz.
    + apply String.compare_eq_iff in Eyz. subst. by rewrite Exy.
    + by rewrite (string_compare_trans x y z Exy Eyz).
Qed.

Section SampleEngineFacts.
Import SampleEngine.
Context {A : Type}.
Variable comparefn : A -> A -> num.


(** The search does not run out of fuel: from [right - left] rounds on,
    more of them change nothing. *)
Lemma binarySearch_fuel fuel fuel' pivot (sorted : list A) left right :
  (right - left <= fuel)%nat -> (right - left <= fuel')%nat ->
  binarySearch fuel comparefn pivot sorted left right
  = binarySearch fuel' comparefn pivot sorted left right.
Proof.
  revert fuel' left right.
  induction fuel as [|fuel IH]; intros [|fuel'] left right Hfuel Hfuel';
    cbn [binarySearch]; [done|..].
  - by destruct (Nat.ltb_spec left right); [lia|].
  - by destruct (Nat.ltb_spec left right); [lia|].
  - destruct (Nat.ltb_spec left right) as [Hlt|]; [|done].
    pose proof (Nat.div_lt (right - left) 2 ltac:(lia) ltac:(lia)) as Hhalf.
    rewrite <- Nat.div2_div in Hhalf.
    set (half := Nat.div2 (right - left)) in *. clearbody half.
    destruct (sorted !! _) as [element|]; [|done].
    destruct (SortCompare comparefn pivot element <? 0); apply IH; lia.
Qed.

Lemma binaryInsert_perm (sorted : list A) (pivot : A) :
  binaryInsert comparefn sorted pivot ≡ₚ pivot :: sorted.
Proof.
  unfold binaryInsert. rewrite <- Permutation_middle. by rewrite take_drop.
Qed.

Lemma run_perm (isDescending : bool) (n : nat) (arr : list A) :
  (if isDescending then reverse (take n arr) else take n arr) ++ drop n arr
  ≡ₚ arr.
Proof.
  destruct isDescending; rewrite ?reverse_Permutation; by rewrite take_drop.
Qed.

Lemma countAndMakeRun_perm (arr run rest : list A) :
  countAndMakeRun comparefn arr = (run, rest) -> run ++ rest ≡ₚ arr.
Proof.
  unfold countAndMakeRun.
  destruct arr as [|a [|b l]]; intros [= <- <-]; rewrite ?app_nil_r; [done..|].
  exact (run_perm (SortCompare comparefn b a <? 0)
           (2 + runLength comparefn (SortCompare comparefn b a <? 0) b l)
           (a :: b :: l)).
Qed.

Lemma timSort_perm (arr : list A) : timSort comparefn arr ≡ₚ arr.
Proof.
  unfold timSort.
  destruct (countAndMakeRun comparefn arr) as [run rest] eqn:Hrun.
  rewrite <- (countAndMakeRun_perm _ _ _ Hrun). clear Hrun.
  revert run. induction rest as [|x rest IH]; intros run; simpl.
  - by rewrite app_nil_r.
  - rewrite IH, binaryInsert_perm. simpl. apply Permutation_middle.
Qed.

End SampleEngineFacts.

Section TimSortFacts.
Import SampleEngine.
Context {A : Type}.
Variable comparefn : A -> A -> num.
Hypothesis consistent : Consistent comparefn.

Local Abbreviation cmp := (SortCompare comparefn).
Local Abbreviation le := (fun x y => SortCompare comparefn x y <= 0).
Local Abbreviation lt := (fun x y => SortCompare comparefn x y < 0).

Lemma not_lt_le x y : cmp x y >= 0 -> cmp y x <= 0.
Proof. pose proof (consistent_flip _ consistent y x). lia. Qed.

Lemma lt_le_trans x y z : cmp x y < 0 -> cmp y z <= 0 -> cmp x z < 0.
Proof.
  intros Hxy Hyz.
  destruct (Z.lt_ge_cases (cmp x z) 0) as [|Hge]; [done|].
  pose proof (consistent_flip _ consistent y x).
  pose proof (consistent_trans _ consistent y z x Hyz
                (not_lt_le x z ltac:(lia))). lia.
Qed.

Lemma le_lt_trans x y z : cmp x y <= 0 -> cmp y z < 0 -> cmp x z < 0.
Proof.
  intros Hxy Hyz.
  destruct (Z.lt_ge_cases (cmp x z) 0) as [|Hge]; [done|].
  pose proof (consistent_flip _ consistent z y).
  pose proof (consistent_trans _ consistent z x y
                (not_lt_le x z ltac:(lia)) Hxy). lia.
Qed.

#[local] Instance le_transitive : Transitive le.
Proof. intros x y z. apply (consistent_trans _ consistent). Qed.

#[local] Instance lt_transitive : Transitive lt.
Proof.
  intros x y z Hxy Hyz. eapply lt_le_trans; [exact Hxy | simpl in *; lia].
Qed.

Lemma StronglySorted_lookup (R : A -> A -> Prop) (l : list A) i j x y :
  StronglySorted R l -> l !! i = Some x -> l !! j = Some y -> (i < j)%nat ->
  R x y.
Proof.
  intros Hs. revert i j. induction Hs as [|a l Hl IH Ha]; intros i j Hi Hj Hij.
  - done.
  - destruct j as [|j]; [lia|]. destruct i as [|i]; simpl in *.
    + injection Hi as <-. rewrite List.Forall_forall in Ha.
      apply Ha, list_elem_of_In. by eapply list_elem_of_lookup_2.
    + apply (IH i j); [done | done | lia].
Qed.

(** The search ends at the place behind the elements that [pivot] does
    not precede and in front of those that it precedes. *)
Lemma binarySearch_spec fuel pivot (sorted : list A) left right :
  StronglySorted le sorted ->
  (left <= right)%nat -> (right <= length sorted)%nat ->
  (right - left <= fuel)%nat ->
  (forall i x, sorted !! i = Some x -> (i < left)%nat -> cmp pivot x >= 0) ->
  (forall i x, sorted !! i = Some x -> (right <= i)%nat -> cmp pivot x < 0) ->
  (forall i x, sorted !! i = Some x ->
     (i < binarySearch fuel comparefn pivot sorted left right)%nat ->
     cmp pivot x >= 0)
  /\ (forall i x, sorted !! i = Some x ->
        (binarySearch fuel comparefn pivot sorted left right <= i)%nat ->
        cmp pivot x < 0).
Proof.
  intros Hs. revert left right.
  induction fuel as [|fuel IH]; intros left right Hlr Hrl Hfuel Hlo Hhi;
    cbn [binarySearch].
  - assert (left = right) as -> by lia. split; auto.
  - destruct (Nat.ltb_spec left right) as [Hlt|Hge]; cycle 1.
    { assert (left = right) as -> by lia. split; auto. }
    set (mid := (left + Nat.div2 (right - left))%nat).
    assert (Hmid : (left <= mid < right)%nat).
    { subst mid. rewrite Nat.div2_div.
      pose proof (Nat.div_lt (right - left) 2 ltac:(lia) ltac:(lia)). lia. }
    destruct (lookup_lt_is_Some_2 sorted mid ltac:(lia)) as [e He].
    rewrite He.
    destruct (Z.ltb_spec (cmp pivot e) 0) as [Hpe|Hpe].
    + apply IH; [lia | lia | lia | exact Hlo |].
      intros i x Hi Hge. destruct (decide (i = mid)) as [-> | Hne].
      * congruence.
      * eapply lt_le_trans; [exact Hpe|].
        apply (StronglySorted_lookup le sorted mid i); [done..|lia].
    + apply IH; [lia | lia | lia | | exact Hhi].
      intros i x Hi Hlt'. destruct (decide (i = mid)) as [-> | Hne].
      * assert (x = e) as -> by congruence. lia.
      * destruct (Z.lt_ge_cases (cmp pivot x) 0) as [Hpx|]; [|lia].
        assert (cmp pivot e < 0); [|lia].
        eapply lt_le_trans; [exact Hpx|].
        apply (StronglySorted_lookup le sorted i mid); [done..|lia].
Qed.

Lemma binaryInsert_place pivot (sorted : list A) :
  StronglySorted le sorted ->
  exists left,
    binaryInsert comparefn sorted pivot
    = take left sorted ++ pivot :: drop left sorted
    /\ (forall x, x ∈ take left sorted -> cmp pivot x >= 0)
    /\ (forall x, x ∈ drop left sorted -> cmp pivot x < 0).
Proof.
  intros Hs. eexists. split; [reflexivity|].
  destruct (binarySearch_spec (length sorted) pivot sorted 0 (length sorted) Hs)
    as [Hlo Hhi]; [lia | lia | lia | intros; lia | |].
  { intros i x Hi Hge. apply lookup_lt_Some in Hi. lia. }
  split.
  - intros x (i & Hi & Hlt)%elem_of_take. by apply (Hlo i).
  - intros x (i & Hi)%list_elem_of_lookup. rewrite lookup_drop in Hi.
    apply (Hhi _ x Hi). lia.
Qed.

Lemma binaryInsert_sorted pivot (sorted : list A) :
  StronglySorted le sorted ->
  StronglySorted le (binaryInsert comparefn sorted pivot).
Proof.
  intros Hs. destruct (binaryInsert_place pivot sorted Hs)
    as (left & -> & Hlo & Hhi).
  rewrite <- (take_drop left sorted) in Hs.
  apply StronglySorted_app in Hs as (Hcross & Htake & Hdrop).
  apply StronglySorted_app. split; [|split; [done|]].
  - intros x1 x2 Hx1 [-> | Hx2]%elem_of_cons.
    + by apply not_lt_le, Hlo.
    + by apply Hcross.
  - apply StronglySorted_cons. split; [|done].
    apply Forall_forall. intros x Hx. specialize (Hhi x Hx). simpl. lia.
Qed.

Lemma ties_app x (l1 l2 : list A) :
  ties comparefn x (l1 ++ l2) = ties comparefn x l1 ++ ties comparefn x l2.
Proof. apply List.filter_app. Qed.

Lemma ties_none x (l : list A) :
  (forall y, y ∈ l -> cmp x y <> 0) -> ties comparefn x l = [].
Proof.
  intros H. induction l as [|y l IH]; [done|]. unfold ties in *. simpl.
  destruct (Z.eqb_spec (cmp x y) 0) as [E|_].
  - exfalso. apply (H y); [left | done].
  - apply IH. intros z Hz. apply H. by right.
Qed.

Lemma ties_cons x y (l : list A) :
  ties comparefn x (y :: l)
  = (if cmp x y =? 0 then [y] else []) ++ ties comparefn x l.
Proof. unfold ties. simpl. by destruct (cmp x y =? 0). Qed.

Lemma binaryInsert_ties x pivot (sorted : list A) :
  StronglySorted le sorted ->
  ties comparefn x (binaryInsert comparefn sorted pivot)
  = ties comparefn x sorted ++ ties comparefn x [pivot].
Proof.
  intros Hs. destruct (binaryInsert_place pivot sorted Hs)
    as (left & -> & Hlo & Hhi).
  rewrite <- (take_drop left sorted) at 3.
  rewrite !ties_app, !ties_cons.
  destruct (Z.eqb_spec (cmp x pivot) 0) as [E|_].
  - rewrite (ties_none x (drop left sorted)); [by rewrite !app_nil_r|].
    intros y Hy. specialize (Hhi y Hy).
    assert (cmp x y < 0); [|lia].
    eapply le_lt_trans; [|exact Hhi]. lia.
  - simpl. by rewrite !app_nil_r.
Qed.

Lemma foldl_binaryInsert (rest run : list A) :
  StronglySorted le run ->
  StronglySorted le (foldl (binaryInsert comparefn) run rest)
  /\ forall x, ties comparefn x (foldl (binaryInsert comparefn) run rest)
               = ties comparefn x run ++ ties comparefn x rest.
Proof.
  revert run. induction rest as [|p rest IH]; intros run Hs; simpl.
  - split; [done|]. intros x. by rewrite app_nil_r.
  - destruct (IH _ (binaryInsert_sorted p run Hs)) as [Hsorted Hties].
    split; [done|]. intros x.
    rewrite Hties, binaryInsert_ties by done.
    rewrite <- app_assoc. f_equal. by rewrite <- ties_app.
Qed.

(** The run at the start of the array. *)
Lemma runLength_sorted isDescending previousElement (rest : list A) :
  Sorted (inRun comparefn isDescending)
    (previousElement
       :: take (runLength comparefn isDescending previousElement rest) rest).
Proof.
  revert previousElement.
  induction rest as [|cur rest IH]; intros prev; cbn [runLength].
  - repeat constructor.
  - destruct isDescending.
    + destruct (Z.geb_spec (cmp cur prev) 0); simpl.
      * repeat constructor.
      * constructor; [apply IH|]. constructor. simpl. lia.
    + destruct (Z.ltb_spec (cmp cur prev) 0); simpl.
      * repeat constructor.
      * constructor; [apply IH|]. constructor. simpl. lia.
Qed.

Lemma StronglySorted_impl (R1 R2 : A -> A -> Prop) (l : list A) :
  (forall x y, R1 x y -> R2 x y) -> StronglySorted R1 l -> StronglySorted R2 l.
Proof.
  intros H Hs. induction Hs as [|a l Hl IH Ha]; constructor; [done|].
  eapply List.Forall_impl; [|exact Ha]. apply H.
Qed.

Lemma ties_reverse x (l : list A) :
  ties comparefn x (reverse l) = reverse (ties comparefn x l).
Proof.
  induction l as [|y l IH]; [done|].
  rewrite reverse_cons, ties_app, IH. unfold ties. cbn [List.filter].
  destruct (cmp x y =? 0); [by rewrite reverse_cons | by rewrite app_nil_r].
Qed.

(** A strictly ascending array holds at most one element of a tie. *)
Lemma ties_strict x (l : list A) :
  StronglySorted lt l ->
  ties comparefn x l = [] \/ exists a, ties comparefn x l = [a].
Proof.
  intros Hs. induction Hs as [|a l Hl IH Ha]; [by left|].
  unfold ties in *. cbn [List.filter].
  destruct (Z.eqb_spec (cmp x a) 0) as [E|_]; [|exact IH].
  right. exists a. f_equal. apply ties_none.
  intros y Hy. rewrite List.Forall_forall in Ha.
  specialize (Ha y (proj1 (list_elem_of_In _ _) Hy)). simpl in Ha.
  assert (cmp x y < 0); [|lia].
  eapply le_lt_trans; [|exact Ha]. lia.
Qed.

Lemma countAndMakeRun_sorted (arr run rest : list A) :
  countAndMakeRun comparefn arr = (run, rest) ->
  StronglySorted le run
  /\ forall x, ties comparefn x run ++ ties comparefn x rest
               = ties comparefn x arr.
Proof.
  unfold countAndMakeRun.
  destruct arr as [|a [|b l]]; [intros [= <- <-].. | ].
  - split; [constructor | done].
  - split; [repeat constructor|]. intros x. by rewrite app_nil_r.
  - set (isDescending := cmp b a <? 0).
    set (k := runLength comparefn isDescending b l).
    change (2 + k)%nat with (S (S k)). cbn [take drop].
    assert (Hchain : Sorted (inRun comparefn isDescending)
                       (a :: b :: take k l)).
    { constructor; [apply runLength_sorted|]. constructor.
      subst isDescending. unfold inRun.
      destruct (Z.ltb_spec (cmp b a) 0); lia. }
    assert (Hsplit : forall x,
               ties comparefn x (a :: b :: take k l)
               ++ ties comparefn x (drop k l)
               = ties comparefn x (a :: b :: l)).
    { intros x. rewrite <- ties_app. simpl. by rewrite take_drop. }
    destruct isDescending; intros [= <- <-].
    + assert (Hs : StronglySorted lt (reverse (a :: b :: take k l))).
      { apply (Sorted_StronglySorted lt).
        exact (Sorted_reverse (inRun comparefn true) _ Hchain). }
      split.
      * eapply StronglySorted_impl; [|exact Hs]. simpl. intros; lia.
      * intros x. rewrite <- Hsplit. f_equal.
        pose proof (ties_reverse x (a :: b :: take k l)) as Hrev.
        destruct (ties_strict x _ Hs) as [E | [e E]]; rewrite E in Hrev |- *.
        -- by rewrite <- (reverse_involutive (ties _ _ _)), <- Hrev.
        -- by rewrite <- (reverse_involutive (ties _ _ _)), <- Hrev.
    + split; [|exact Hsplit].
      apply (Sorted_StronglySorted le).
      eapply Sorted_ind with (P := Sorted le) in Hchain;
        [exact Hchain | constructor |].
      intros x l' Hl' IH Hhd. constructor; [done|].
      destruct Hhd as [|y l'' Hy]; constructor. unfold inRun in Hy.
      by apply not_lt_le.
Qed.

Lemma timSort_stableSort (arr : list A) :
  timSort comparefn arr = stableSort comparefn arr.
Proof.
  apply (stableSort_unique comparefn consistent).
  - apply timSort_perm.
  - unfold timSort.
    destruct (countAndMakeRun comparefn arr) as [run rest] eqn:Hrun.
    apply countAndMakeRun_sorted in Hrun as [Hs _].
    by apply foldl_binaryInsert.
  - intros x. unfold timSort.
    destruct (countAndMakeRun comparefn arr) as [run rest] eqn:Hrun.
    apply countAndMakeRun_sorted in Hrun as [Hs Hties].
    destruct (foldl_binaryInsert rest run Hs) as [_ ->]. apply Hties.
Qed.

End TimSortFacts.

Section TimSortTransfer.
Import SampleEngine.
Context {A B : Type} (f : B -> A).
Variable comparefn : A -> A -> num.

Local Abbreviation comparefn' := (fun x y : B => comparefn (f x) (f y)).

Lemma sortInsert_fmap x (l : list B) :
  sortInsert comparefn (f x) (f <$> l) = f <$> sortInsert comparefn' x l.
Proof.
  induction l as [|y l IH]; [done|]. cbn [sortInsert fmap list_fmap].
  change (SortCompare comparefn (f x) (f y)) with (SortCompare comparefn' x y).
  destruct (SortCompare comparefn' x y >? 0); [|done].
  cbn [fmap list_fmap] in *. by rewrite IH.
Qed.

Lemma stableSort_fmap (l : list B) :
  stableSort comparefn (f <$> l) = f <$> stableSort comparefn' l.
Proof.
  induction l as [|x l IH]; [done|].
  change (stableSort comparefn (f <$> x :: l))
    with (sortInsert comparefn (f x) (stableSort comparefn (f <$> l))).
  by rewrite IH, sortInsert_fmap.
Qed.

Lemma runLength_fmap isDescending p (l : list B) :
  runLength comparefn isDescending (f p) (f <$> l)
  = runLength comparefn' isDescending p l.
Proof.
  revert p. induction l as [|x l IH]; intros p; [done|].
  cbn [runLength fmap list_fmap].
  change (SortCompare comparefn (f x) (f p)) with (SortCompare comparefn' x p).
  destruct (if isDescending then _ else _); [done|].
  cbn [fmap list_fmap] in *. by rewrite IH.
Qed.

Lemma binarySearch_fmap fuel p (s : list B) left right :
  binarySearch fuel comparefn (f p) (f <$> s) left right
  = binarySearch fuel comparefn' p s left right.
Proof.
  revert left right. induction fuel as [|fuel IH]; intros left right; [done|].
  cbn [binarySearch]. destruct (left <? right)%nat; [|done].
  rewrite list_lookup_fmap.
  destruct (s !! _) as [e|]; [|done]. cbn [fmap option_fmap option_map].
  change (SortCompare comparefn (f p) (f e)) with (SortCompare comparefn' p e).
  destruct (SortCompare comparefn' p e <? 0); apply IH.
Qed.

Lemma binaryInsert_fmap (s : list B) p :
  binaryInsert comparefn (f <$> s) (f p) = f <$> binaryInsert comparefn' s p.
Proof.
  unfold binaryInsert. rewrite length_fmap, binarySearch_fmap.
  by rewrite fmap_app, fmap_cons, fmap_take, fmap_drop.
Qed.

Lemma foldl_binaryInsert_fmap (rest run : list B) :
  foldl (binaryInsert comparefn) (f <$> run) (f <$> rest)
  = f <$> foldl (binaryInsert comparefn') run rest.
Proof.
  revert run. induction rest as [|p rest IH]; intros run; [done|].
  cbn [foldl fmap list_fmap]. rewrite binaryInsert_fmap. apply IH.
Qed.

Lemma countAndMakeRun_fmap (l : list B) :
  countAndMakeRun comparefn (f <$> l)
  = (f <$> (countAndMakeRun comparefn' l).1,
     f <$> (countAndMakeRun comparefn' l).2).
Proof.
  destruct l as [|a [|b l]]; [done..|].
  change (countAndMakeRun comparefn (f <$> a :: b :: l))
    with (let isDescending := SortCompare comparefn' b a <? 0 in
          let n := (2 + runLength comparefn isDescending (f b) (f <$> l))%nat in
          (if isDescending then reverse (take n (f <$> a :: b :: l))
           else take n (f <$> a :: b :: l),
           drop n (f <$> a :: b :: l))).
  cbv zeta. rewrite runLength_fmap.
  rewrite <- fmap_take, <- fmap_drop, <- fmap_reverse.
  unfold countAndMakeRun.
  by destruct (SortCompare comparefn' b a <? 0).
Qed.

Lemma timSort_fmap (l : list B) :
  timSort comparefn (f <$> l) = f <$> timSort comparefn' l.
Proof.
  unfold timSort. rewrite countAndMakeRun_fmap.
  destruct (countAndMakeRun comparefn' l) as [run rest].
  apply foldl_binaryInsert_fmap.
Qed.

End TimSortTransfer.

Section TimSortConforms.
Import SampleEngine.
Context {A : Type}.
Variable comparefn : A -> A -> num.

Lemma list_of_elements (arr l : list A) :
  (forall x, x ∈ l -> x ∈ arr) ->
  exists l' : list {x : A | x ∈ arr}, proj1_sig <$> l' = l.
Proof.
  induction l as [|x l IH]; intros Hin; [by exists []|].
  destruct IH as [l' Hl']; [intros y Hy; apply Hin; by right|].
  exists (exist _ x (Hin x ltac:(left)) :: l'). by rewrite fmap_cons, Hl'.
Qed.

(** On a comparator that is consistent for the elements of the array, the
    sort of V8 returns what the language prescribes. *)
Lemma timSort_consistent (arr : list A) :
  ConsistentOn comparefn arr ->
  timSort comparefn arr = stableSort comparefn arr.
Proof.
  intros [Hrefl Hflip Htrans].
  destruct (list_of_elements arr arr) as [l' <-]; [done|].
  rewrite timSort_fmap, stableSort_fmap. f_equal.
  apply timSort_stableSort. split.
  - intros [x Hx]. by apply Hrefl.
  - intros [x Hx] [y Hy]. by apply Hflip.
  - intros [x Hx] [y Hy] [z Hz]. by apply Htrans.
Qed.

End TimSortConforms.

Module SampleRuntime.

Definition runtime : JsRuntime :=
  {| localeCompare := SampleEngine.codeUnitCompare;
     localeCompare_consistent := codeUnitCompare_consistent;
     toLowerCase := SampleEngine.asciiLower;
     dateValue := SampleEngine.isoDate;
     endOfDay := fun t => t - t mod SampleEngine.msPerDay
                          + (SampleEngine.msPerDay - 1);
     sort := @SampleEngine.timSort;
     sort_perm := @timSort_perm;
     sort_consistent := @timSort_consistent |}.

End SampleRuntime.

Section SpliceFacts.
Context {A : Type}.

Lemma filter_none (l : list A) : List.filter (fun _ => false) l = [].
Proof. induction l; simpl; auto. Qed.

(** [splice] with nothing to remove from: a start at or past the end
    removes nothing. *)
Lemma splice_past_end (start : Z) (items l : list A) :
  Z.of_nat (length l) <= start ->
  splice start 1 items l = ([], l ++ items).
Proof.
  intros Hge. unfold splice.
  replace (if start <? 0 then Z.max (Z.of_nat (length l) + start) 0
           else Z.min start (Z.of_nat (length l)))
    with (Z.of_nat (length l))
    by (destruct (start <? 0) eqn:Hneg;
        [apply Z.ltb_lt in Hneg | apply Z.ltb_ge in Hneg]; lia).
  replace (Z.to_nat (Z.min (Z.max 1 0)
                       (Z.of_nat (length l) - Z.of_nat (length l))))
    with 0%nat by lia.
  rewrite Nat2Z.id, Nat.add_0_r, drop_all.
  rewrite (take_ge l (length l)) by lia.
  simpl. by rewrite app_nil_r.
Qed.

(** Inserting one element keeps every element and adds one. *)
Lemma splice_insert_perm (at_ : Z) (x : A) (l : list A) :
  snd (splice at_ 0 [x] l) ≡ₚ x :: l.
Proof.
  unfold splice. cbn [snd].
  set (k := Z.to_nat _).
  replace (Z.to_nat (Z.min (Z.max 0 0) _)) with 0%nat by lia.
  rewrite Nat.add_0_r. simpl.
  rewrite <- Permutation_middle. by rewrite take_drop.
Qed.

End SpliceFacts.

Section ReorderFacts.

(** Past the end of the array [reorder] removes nothing and inserts
    [undefined]. *)
Lemma reorder_past_end (startIndex endIndex : Z)
    (prev : list (option Course.t)) :
  Z.of_nat (length prev) <= startIndex ->
  CourseContext.reorder startIndex endIndex prev
  = snd (splice endIndex 0 [None] prev).
Proof.
  intros Hge. unfold CourseContext.reorder.
  rewrite (splice_past_end _ _ _ Hge). simpl. by rewrite app_nil_r.
Qed.

Lemma reorder_past_end_perm (startIndex endIndex : Z)
    (prev : list (option Course.t)) :
  Z.of_nat (length prev) <= startIndex ->
  CourseContext.reorder startIndex endIndex prev ≡ₚ None :: prev.
Proof.
  intros Hge. rewrite reorder_past_end by done. apply splice_insert_perm.
Qed.

(** A start index that denotes an element, counted from either end, moves
    that element: the array keeps its elements. *)
Lemma reorder_perm (startIndex endIndex : Z) (prev : list (option Course.t)) :
  prev <> [] ->
  startIndex < Z.of_nat (length prev) ->
  CourseContext.reorder startIndex endIndex prev ≡ₚ prev.
Proof.
  intros Hne Hlt. unfold CourseContext.reorder, splice at 1.
  set (len := Z.of_nat (length prev)).
  set (actualStart :=
         if startIndex <? 0 then Z.max (len + startIndex) 0
         else Z.min startIndex len).
  assert (Hlen : 0 < len).
  { subst len. destruct prev; [done | simpl; lia]. }
  assert (Hs : 0 <= actualStart < len).
  { subst actualStart. destruct (startIndex <? 0) eqn:E;
      [apply Z.ltb_lt in E | apply Z.ltb_ge in E]; lia. }
  replace (Z.to_nat (Z.min (Z.max 1 0) (len - actualStart))) with 1%nat by lia.
  set (k := Z.to_nat actualStart).
  assert (Hk : (k < length prev)%nat) by (subst k len; lia).
  destruct (lookup_lt_is_Some_2 prev k Hk) as [x Hx].
  rewrite (drop_S _ _ _ Hx). cbn [take head default].
  match goal with
  | |- (let '(_, n) := ?p in n) ≡ₚ _ => change (snd p ≡ₚ prev)
  end.
  rewrite splice_insert_perm. cbn [id app].
  rewrite Permutation_middle.
  replace (k + 1)%nat with (S k) by lia.
  by rewrite <- (drop_S _ _ _ Hx), take_drop.
Qed.

End ReorderFacts.

Section EngineFacts.
Import CourseListPage.
Context {rt : JsRuntime}.


Lemma sort_nil {A} (comparefn : A -> A -> num) : sort comparefn [] = [].
Proof. apply Permutation_nil_r, sort_perm. Qed.

(** The drag view shows the filtered collection in its own order; every
    other view shows the same courses sorted. *)
Lemma filtered_view (courses : list Course.t) (filters : FilterState) :
  filtered courses filters =
    if bool_decide (view filters = drag)
    then filtered courses (handleViewChange drag filters)
    else sort (comparefn filters)
              (filtered courses (handleViewChange drag filters)).
Proof.
  unfold filtered at 1.
  destruct (bool_decide (view filters = drag)); reflexivity.
Qed.






(** A duration bound that is not empty and that [parseInt] reads as [NaN]
    rejects every course. *)
Lemma filtered_min_NaN (courses : list Course.t) (filters : FilterState) :
  nonEmpty (min (durationRange filters)) = true ->
  parseInt (min (durationRange filters)) = None ->
  filtered courses filters = [].
Proof.
  intros Hne Hnan. unfold filtered. rewrite Hne, Hnan.
  cbn [num_ge]. rewrite filter_none.
  destruct (nonEmpty (max _)), (negb (bool_decide (view _ = _)));
    simpl; by rewrite ?sort_nil.
Qed.

Lemma filtered_max_NaN (courses : list Course.t) (filters : FilterState) :
  nonEmpty (max (durationRange filters)) = true ->
  parseInt (max (durationRange filters)) = None ->
  filtered courses filters = [].
Proof.
  intros Hne Hnan. unfold filtered. rewrite Hne, Hnan.
  cbn [num_le]. rewrite filter_none.
  destruct (negb (bool_decide (view _ = _))); simpl; by rewrite ?sort_nil.
Qed.



End EngineFacts.

Section EngineClaims.
Import CourseListPage.

(** C5.  A duration bound that is not empty and that [parseInt] reads as
    [NaN] is not treated as absent.  With [abc] as the minimum, or with
    [.5], which a numeric input accepts, the page shows no course at all,
    while without the bound it shows both courses of the test suite. *)
Theorem unparseable_bound_hides_every_course :
  parseInt "abc" = None
  /\ parseInt ".5" = None
  /\ @filtered SampleRuntime.runtime
       [Sample.reactFundamentals; Sample.advancedTypeScript]
       (Sample.withDuration "abc" "" Sample.dragFilters)
     = []
  /\ @filtered SampleRuntime.runtime
       [Sample.reactFundamentals; Sample.advancedTypeScript]
       (Sample.withDuration ".5" "" Sample.dragFilters)
     = []
  /\ @filtered SampleRuntime.runtime
       [Sample.reactFundamentals; Sample.advancedTypeScript]
       (Sample.withDuration "" "" Sample.dragFilters)
     = [Sample.reactFundamentals; Sample.advancedTypeScript].
Proof. repeat split; reflexivity. Qed.

(** The same on every run time, collection and filter configuration: no
    course passes a comparison with [NaN]. *)
Lemma filtered_NaN_bound
    (rt : JsRuntime) (courses : list Course.t) (filters : FilterState) :
  (min (durationRange filters) <> ""
   /\ parseInt (min (durationRange filters)) = None)
  \/ (max (durationRange filters) <> ""
      /\ parseInt (max (durationRange filters)) = None) ->
  filtered courses filters = [].
Proof.
  intros [[Hne Hnan] | [Hne Hnan]].
  - apply filtered_min_NaN; [|done].
    unfold nonEmpty. by rewrite bool_decide_eq_false_2.
  - apply filtered_max_NaN; [|done].
    unfold nonEmpty. by rewrite bool_decide_eq_false_2.
Qed.

(** C6.  The drag list computes both indices in the list it displays, and
    the store applies them to the whole collection.  With the status filter
    on [published] the page shows the last two of four courses; dragging
    the first of them onto the second asks for the two in the opposite
    order.  The store swaps its first two elements instead, the two drafts
    that the filter hides, and the page shows the two published courses in
    the order they had. *)
Theorem drag_reorder_uses_displayed_indices (rt : JsRuntime) :
  let courses := [Sample.reactFundamentals; Sample.shortCourse;
                  Sample.advancedTypeScript; Sample.nodeBasics] in
  let filters := Sample.withStatus "published" Sample.dragFilters in
  filtered courses filters = [Sample.advancedTypeScript; Sample.nodeBasics]
  /\ CourseContext.reorder 0 1
       (Some <$> [Sample.advancedTypeScript; Sample.nodeBasics])
     = Some <$> [Sample.nodeBasics; Sample.advancedTypeScript]
  /\ dragEnd courses filters "2" (Some "3")
     = Some <$> [Sample.shortCourse; Sample.reactFundamentals;
                 Sample.advancedTypeScript; Sample.nodeBasics]
  /\ filtered [Sample.shortCourse; Sample.reactFundamentals;
               Sample.advancedTypeScript; Sample.nodeBasics] filters
     = [Sample.advancedTypeScript; Sample.nodeBasics].
Proof. repeat split; reflexivity. Qed.




(** C8.  A start index past the end corrupts the array: [reorder(2, 0)] on
    the two courses of the test suite gives three entries, the first of
    them [undefined], and [reorder(0, 1)] on the empty array, which the
    store holds until the first load, gives one [undefined] entry. *)
Theorem reorder_past_end_inserts_undefined :
  CourseContext.reorder 2 0
    (Some <$> [Sample.reactFundamentals; Sample.advancedTypeScript])
  = [None; Some Sample.reactFundamentals; Some Sample.advancedTypeScript]
  /\ CourseContext.reorder 0 1 [] = [None].
Proof. split; reflexivity. Qed.

End EngineClaims.

(** * The model on the scenarios of the test suite *)

Section Scenarios.
Import CourseListPage courseApi.

(** Two courses of 120 minutes around one of 180: in both directions the
    two keep their order. *)
Example sort_by_duration_asc :
  @filtered SampleRuntime.runtime
    [Sample.reactFundamentals; Sample.advancedTypeScript; Sample.shortCourse]
    (Sample.byDuration asc)
  = [Sample.reactFundamentals; Sample.shortCourse; Sample.advancedTypeScript].
Proof. reflexivity. Qed.

Example sort_by_duration_desc :
  @filtered SampleRuntime.runtime
    [Sample.reactFundamentals; Sample.advancedTypeScript; Sample.shortCourse]
    (Sample.byDuration desc)
  = [Sample.advancedTypeScript; Sample.reactFundamentals; Sample.shortCourse].
Proof. reflexivity. Qed.

(** A maximum of 150 minutes keeps the course of 120 minutes only. *)
Example max_duration_150 :
  @filtered SampleRuntime.runtime
    [Sample.reactFundamentals; Sample.advancedTypeScript]
    (Sample.withDuration "" "150" Sample.dragFilters)
  = [Sample.reactFundamentals].
Proof. reflexivity. Qed.

(** Publishing the draft of the test suite stamps it. *)
Example publish_draft :
  fst (updateCourse "2024-02-01T00:00:00Z" "1" (Sample.setStatus published)
         [Sample.reactFundamentals; Sample.advancedTypeScript])
  = Ok {| Course.id := "1";
          Course.title := "React Fundamentals";
          Course.description := Some "Learn React basics";
          Course.duration := 120;
          Course.status := published;
          Course.createdAt := "2024-01-01T00:00:00Z";
          Course.publishedAt := Some "2024-02-01T00:00:00Z" |}.
Proof. reflexivity. Qed.

(** The reorder of the store's test suite, and its way back. *)
Example reorder_0_1 :
  CourseContext.reorder 0 1
    (Some <$> [Sample.reactFundamentals; Sample.advancedTypeScript])
  = Some <$> [Sample.advancedTypeScript; Sample.reactFundamentals]
  /\ CourseContext.reorder 1 0
       (Some <$> [Sample.advancedTypeScript; Sample.reactFundamentals])
     = Some <$> [Sample.reactFundamentals; Sample.advancedTypeScript].
Proof. split; reflexivity. Qed.

(** Without a filter the drag view shows the collection itself, and a drag
    moves the dragged course to the place of the one it is dropped on. *)
Example drag_without_filter (rt : JsRuntime) :
  filtered [Sample.reactFundamentals; Sample.advancedTypeScript;
            Sample.nodeBasics] Sample.dragFilters
  = [Sample.reactFundamentals; Sample.advancedTypeScript; Sample.nodeBasics]
  /\ dragEnd [Sample.reactFundamentals; Sample.advancedTypeScript;
              Sample.nodeBasics] Sample.dragFilters "1" (Some "3")
     = Some <$> [Sample.advancedTypeScript; Sample.nodeBasics;
                 Sample.reactFundamentals].
Proof. split; reflexivity. Qed.

End Scenarios.

(** * More on the gateway: lookups, deletion and how the requests compose *)

Section GatewayLookups.
Import courseApi.

Lemma findIndex_None id (courses : list Course.t) :
  findIndex id courses = None <-> id ∉ (Course.id <$> courses).
Proof.
  unfold findIndex. rewrite list_find_None, Forall_forall, list_elem_of_fmap.
  split.
  - intros H (c & -> & Hc). by apply (H c).
  - intros H c Hc Hid. apply H. by exists c.
Qed.

(** The index that [findIndex] returns is read off the identifiers alone. *)
Lemma findIndex_index id (courses : list Course.t) :
  fst <$> findIndex id courses
  = fst <$> list_find (fun x => x = id) (Course.id <$> courses).
Proof.
  unfold findIndex. induction courses as [|x l IH]; [done|].
  cbn [list_find fmap list_fmap].
  destruct (decide (Course.id x = id)); [done|].
  destruct (list_find _ l) as [[? ?]|],
           (list_find _ (Course.id <$> l)) as [[? ?]|];
    simpl in *; congruence.
Qed.

(** Two arrays with the same identifiers, position by position, are
    searched alike. *)
Lemma findIndex_same_ids id (s s' : list Course.t) idx c :
  Course.id <$> s' = Course.id <$> s ->
  findIndex id s = Some (idx, c) ->
  exists c', findIndex id s' = Some (idx, c') /\ s' !! idx = Some c'.
Proof.
  intros Hids Hf.
  pose proof (findIndex_index id s) as H1.
  pose proof (findIndex_index id s') as H2.
  rewrite Hids, <- H1, Hf in H2. simpl in H2.
  destruct (findIndex id s') as [[j c']|] eqn:Hf'; [|discriminate].
  simpl in H2. injection H2 as ->.
  exists c'. split; [done|]. by apply findIndex_Some in Hf' as [? _].
Qed.

(** An update whose data holds no [id] leaves the identifiers alone. *)
Lemma updateCourse_ids now id data (courses : list Course.t) :
  CoursePatch.id data = None ->
  Course.id <$> snd (updateCourse now id data courses)
  = Course.id <$> courses.
Proof.
  intros Hnoid.
  destruct (updateCourse_storage now id data courses)
    as [-> | (idx & c & Hf & _ & ->)]; [done|].
  apply findIndex_Some in Hf as [Hidx _].
  rewrite list_fmap_insert.
  apply list_insert_id. rewrite list_lookup_fmap, Hidx. simpl.
  by rewrite updated_id, Hnoid.
Qed.

Lemma getCourse_unfold id (courses : list Course.t) :
  getCourse id courses =
    match findIndex id courses with
    | None => (Throw NotFoundError, courses)
    | Some (_, course) => (Ok course, courses)
    end.
Proof.
  unfold getCourse, bind, getCoursesFromStorage. simpl.
  by destruct (findIndex id courses) as [[? ?]|].
Qed.

Lemma deleteCourse_unfold id (courses : list Course.t) :
  deleteCourse id courses =
    match findIndex id courses with
    | None => (Throw NotFoundError, courses)
    | Some (idx, _) => (Ok tt, delete idx courses)
    end.
Proof.
  unfold deleteCourse, bind, getCoursesFromStorage. simpl.
  by destruct (findIndex id courses) as [[? ?]|].
Qed.

(** The first course with a given identifier, behind a course with another
    identifier removed or not. *)
Lemma findIndex_course_delete id (courses : list Course.t) idx c :
  courses !! idx = Some c -> Course.id c <> id ->
  snd <$> findIndex id (delete idx courses) = snd <$> findIndex id courses.
Proof.
  unfold findIndex. revert idx.
  induction courses as [|x l IH]; intros idx Hidx Hne; [done|].
  destruct idx as [|idx]; simpl in *.
  - injection Hidx as ->. rewrite decide_False by done.
    by destruct (list_find _ l) as [[? ?]|].
  - destruct (decide (Course.id x = id)); [done|].
    specialize (IH idx Hidx Hne).
    destruct (list_find _ (delete idx l)) as [[? ?]|],
             (list_find _ l) as [[? ?]|]; simpl in *; congruence.
Qed.

End GatewayLookups.

Section GatewayExtras.
Import courseApi.

(** X1.  [getCourse] never writes.  It throws the not-found error (status
    404) exactly when no stored course carries the identifier, and
    otherwise returns the first stored course that carries it. *)
Theorem getCourse_first_match (id : string) (courses : list Course.t) :
  snd (getCourse id courses) = courses
  /\ (fst (getCourse id courses) = Throw NotFoundError
      <-> id ∉ (Course.id <$> courses))
  /\ (forall c, fst (getCourse id courses) = Ok c
        <-> exists i, courses !! i = Some c /\ Course.id c = id
                      /\ forall j x, courses !! j = Some x -> (j < i)%nat ->
                                     Course.id x <> id).
Proof.
  rewrite getCourse_unfold.
  destruct (findIndex id courses) as [[idx c0]|] eqn:Hf; simpl.
  - split; [done|]. split.
    + split; [discriminate|]. intros Hn%findIndex_None. congruence.
    + intros c. unfold findIndex in Hf. split.
      * intros [= <-]. exists idx. by apply list_find_Some in Hf.
      * intros (i & Hi & Hid & Hmin).
        assert (list_find (fun c => Course.id c = id) courses = Some (i, c))
          as Hf' by (by apply list_find_Some).
        congruence.
  - split; [done|]. split.
    + split; [by intros _; apply findIndex_None | done].
    + intros c. split; [discriminate|].
      intros (i & Hi & Hid & _). apply findIndex_None in Hf.
      exfalso. apply Hf. apply list_elem_of_fmap. exists c.
      split; [done | by eapply list_elem_of_lookup_2].
Qed.

(** X2.  [deleteCourse] throws the not-found error exactly when no stored
    course carries the identifier, and then leaves the storage alone.
    Otherwise it succeeds whatever the status of the course, an archived
    one included, and removes one entry, the first that carries the
    identifier: the array is one shorter and the courses with other
    identifiers are the same, in the same order. *)
Theorem deleteCourse_removes_first (id : string) (courses : list Course.t) :
  (deleteCourse id courses = (Throw NotFoundError, courses)
   <-> id ∉ (Course.id <$> courses))
  /\ (id ∈ (Course.id <$> courses) ->
      exists idx c,
        findIndex id courses = Some (idx, c)
        /\ deleteCourse id courses = (Ok tt, delete idx courses)
        /\ S (length (delete idx courses)) = length courses
        /\ List.filter (fun x => negb (bool_decide (Course.id x = id)))
             (delete idx courses)
           = List.filter (fun x => negb (bool_decide (Course.id x = id)))
               courses).
Proof.
  rewrite deleteCourse_unfold. split.
  - destruct (findIndex id courses) as [[idx c]|] eqn:Hf.
    + split; [discriminate|]. intros Hn%findIndex_None. congruence.
    + split; [by intros _; apply findIndex_None | done].
  - intros Hin.
    destruct (findIndex id courses) as [[idx c]|] eqn:Hf;
      [|by apply findIndex_None in Hf].
    exists idx, c. apply findIndex_Some in Hf as [Hidx Hid].
    split; [done|]. split; [done|]. split.
    + rewrite length_delete by eauto.
      apply lookup_lt_Some in Hidx. lia.
    + clear Hin. revert idx Hidx.
      induction courses as [|x l IH]; intros idx Hidx; [done|].
      destruct idx as [|idx]; simpl in *.
      * injection Hidx as ->. by rewrite bool_decide_eq_true_2.
      * by rewrite (IH idx Hidx).
Qed.

Lemma deleteCourse_removes_first_witness :
  deleteCourse "4" [Sample.reactFundamentals; Sample.legacyCourse]
  = (Ok tt, [Sample.reactFundamentals]).
Proof.
  destruct (deleteCourse_removes_first "4"
              [Sample.reactFundamentals; Sample.legacyCourse])
    as [_ H].
  destruct H as (idx & c & Hf & Hd & _).
  { apply (bool_decide_unpack _). vm_compute. reflexivity. }
  rewrite Hd. injection Hf as <- <-. reflexivity.
Defined.

End GatewayExtras.

Section GatewayComposition.
Import courseApi.

Lemma NoDup_delete_lookup {A} (l : list A) i x :
  NoDup l -> l !! i = Some x -> x ∉ delete i l.
Proof.
  intros Hnd Hi. rewrite delete_take_drop.
  rewrite <- (take_drop_middle l i x Hi) in Hnd.
  apply NoDup_app in Hnd as (_ & Hl & Hr).
  apply NoDup_cons in Hr as [Hr _].
  apply not_elem_of_app. split; [|done].
  intros Hin. apply (Hl x Hin). left.
Qed.

Lemma createCourse_Ok_inv rnd now data (s s' : list Course.t) c :
  createCourse rnd now data s = (Ok c, s') ->
  s' = s ++ [c] /\ Course.id c = rnd.
Proof.
  unfold createCourse. destruct (_ || _); [discriminate|].
  unfold bind, getCoursesFromStorage, saveCoursesToStorage, ret. simpl.
  by intros [= <- <-].
Qed.

Lemma findIndex_app_l id (s k : list Course.t) idx c :
  findIndex id s = Some (idx, c) -> findIndex id (s ++ k) = Some (idx, c).
Proof. apply list_find_app_l. Qed.

(** X3.  After a successful [createCourse], every course that [getCourse]
    returned before is still returned, the new course is returned for its
    identifier when no stored course carried it, and when one did, the
    lookup keeps returning the older course: the gateway draws identifiers
    without looking at the stored ones. *)
Theorem createCourse_then_getCourse
    (rnd now : string) (data : CourseFormData.t)
    (s s' : list Course.t) (c : Course.t) :
  createCourse rnd now data s = (Ok c, s') ->
  (forall id x, fst (getCourse id s) = Ok x -> fst (getCourse id s') = Ok x)
  /\ (rnd ∉ (Course.id <$> s) -> getCourse rnd s' = (Ok c, s'))
  /\ (rnd ∈ (Course.id <$> s) ->
      fst (getCourse rnd s') = fst (getCourse rnd s)
      /\ exists older, fst (getCourse rnd s) = Ok older /\ older ∈ s).
Proof.
  intros [-> Hid]%createCourse_Ok_inv.
  assert (Hold : forall id x, fst (getCourse id s) = Ok x ->
                              fst (getCourse id (s ++ [c])) = Ok x).
  { intros id x. rewrite !getCourse_unfold.
    destruct (findIndex id s) as [[idx y]|] eqn:Hf; [|discriminate].
    by rewrite (findIndex_app_l _ _ _ _ _ Hf). }
  split; [exact Hold|]. split.
  - intros Hfresh%findIndex_None. rewrite getCourse_unfold.
    unfold findIndex in *. rewrite list_find_app_r by done.
    simpl. by rewrite decide_True.
  - intros Hin. rewrite (getCourse_unfold rnd s).
    destruct (findIndex rnd s) as [[idx y]|] eqn:Hf;
      [|by apply findIndex_None in Hf].
    simpl. split.
    + apply Hold. by rewrite getCourse_unfold, Hf.
    + exists y. split; [done|].
      apply findIndex_Some in Hf as [Hidx _].
      by eapply list_elem_of_lookup_2.
Qed.

Lemma createCourse_then_getCourse_witness :
  fst (getCourse "1"
         (snd (createCourse "1" "2024-02-01T00:00:00Z" Sample.newCourse
                 [Sample.reactFundamentals])))
  = Ok Sample.reactFundamentals.
Proof.
  destruct (createCourse_then_getCourse "1" "2024-02-01T00:00:00Z"
              Sample.newCourse [Sample.reactFundamentals] _ _ eq_refl)
    as (_ & _ & H).
  destruct H as [H _].
  { apply (bool_decide_unpack _). vm_compute. reflexivity. }
  exact H.
Defined.

(** X4.  After a successful [updateCourse] whose data holds no [id],
    [getCourse] with the same identifier returns the course that the
    update returned, and with any other identifier it returns what it
    returned before. *)
Theorem updateCourse_then_getCourse
    (now id : string) (data : CoursePatch.t)
    (s s' : list Course.t) (c' : Course.t) :
  CoursePatch.id data = None ->
  updateCourse now id data s = (Ok c', s') ->
  getCourse id s' = (Ok c', s')
  /\ forall id', id' <> id -> fst (getCourse id' s') = fst (getCourse id' s).
Proof.
  intros Hnoid Hup.
  pose proof (updateCourse_ids now id data s Hnoid) as Hids.
  rewrite Hup in Hids. simpl in Hids.
  apply updateCourse_Ok_inv in Hup as (idx & c & Hf & _ & _ & ->).
  pose proof (findIndex_Some _ _ _ _ Hf) as [Hidx Hid].
  split.
  - destruct (findIndex_same_ids _ _ _ _ _ Hids Hf) as (x & Hf' & Hx).
    rewrite list_lookup_insert_eq in Hx by (eapply lookup_lt_Some; eauto).
    injection Hx as <-. by rewrite getCourse_unfold, Hf'.
  - intros id' Hne. rewrite !getCourse_unfold.
    destruct (findIndex id' s) as [[j y]|] eqn:Hf'.
    + destruct (findIndex_same_ids _ _ _ _ _ Hids Hf') as (x & -> & Hx).
      apply findIndex_Some in Hf' as [Hj Hy].
      rewrite list_lookup_insert_ne in Hx by (intros ->; congruence).
      simpl. congruence.
    + pose proof (findIndex_index id' s) as H1.
      pose proof (findIndex_index id' (<[idx:=c']> s)) as H2.
      rewrite Hids, <- H1, Hf' in H2.
      by destruct (findIndex id' (<[idx:=c']> s)) as [[? ?]|].
Qed.

Lemma updateCourse_then_getCourse_witness :
  fst (getCourse "1"
         (snd (updateCourse "2024-02-01T00:00:00Z" "1"
                 (Sample.setTitle "Updated Course")
                 [Sample.reactFundamentals; Sample.advancedTypeScript])))
  = fst (updateCourse "2024-02-01T00:00:00Z" "1"
           (Sample.setTitle "Updated Course")
           [Sample.reactFundamentals; Sample.advancedTypeScript]).
Proof.
  destruct (updateCourse_then_getCourse "2024-02-01T00:00:00Z" "1"
              (Sample.setTitle "Updated Course")
              [Sample.reactFundamentals; Sample.advancedTypeScript]
              _ _ eq_refl eq_refl) as [H _].
  exact (f_equal fst H).
Defined.

(** X5.  With unique identifiers, a deleted course is gone: after a
    successful [deleteCourse], [getCourse] with the same identifier throws
    the not-found error.  With or without unique identifiers, [getCourse]
    with any other identifier returns what it returned before. *)
Theorem deleteCourse_then_getCourse
    (id : string) (s s' : list Course.t) :
  deleteCourse id s = (Ok tt, s') ->
  (NoDup (Course.id <$> s) -> getCourse id s' = (Throw NotFoundError, s'))
  /\ forall id', id' <> id -> fst (getCourse id' s') = fst (getCourse id' s).
Proof.
  rewrite deleteCourse_unfold.
  destruct (findIndex id s) as [[idx c]|] eqn:Hf; [|discriminate].
  intros [= <-]. apply findIndex_Some in Hf as [Hidx Hid]. split.
  - intros Hnd. rewrite getCourse_unfold.
    destruct (findIndex id (delete idx s)) as [[j y]|] eqn:Hf'; [|done].
    exfalso. apply findIndex_Some in Hf' as [Hj Hy].
    apply (NoDup_delete_lookup (Course.id <$> s) idx id Hnd).
    { by rewrite list_lookup_fmap, Hidx; simpl; rewrite Hid. }
    rewrite <- list_fmap_delete. apply list_elem_of_fmap.
    exists y. split; [done | by eapply list_elem_of_lookup_2].
  - intros id' Hne. rewrite !getCourse_unfold.
    pose proof (findIndex_course_delete id' s idx c Hidx) as H.
    rewrite Hid in H. specialize (H (not_eq_sym Hne)).
    destruct (findIndex id' (delete idx s)) as [[? ?]|],
             (findIndex id' s) as [[? ?]|]; simpl in *; congruence.
Qed.

Lemma deleteCourse_then_getCourse_witness :
  getCourse "1" [Sample.advancedTypeScript]
  = (Throw NotFoundError, [Sample.advancedTypeScript]).
Proof.
  destruct (deleteCourse_then_getCourse "1"
              [Sample.reactFundamentals; Sample.advancedTypeScript]
              [Sample.advancedTypeScript] eq_refl) as [H _].
  apply H. apply (bool_decide_unpack _). vm_compute. reflexivity.
Defined.

(** X6.  The requests keep identifiers unique, unless an update carries
    one.  An [updateCourse] whose data holds no [id] leaves the identifier
    of every position as it is, and [deleteCourse] keeps distinct
    identifiers distinct.  [createCourse] does so exactly when the
    identifier it draws is carried by no stored course; otherwise it
    stores a second course under that identifier. *)
Theorem unique_ids_preserved (s : list Course.t) :
  (forall now id data,
      CoursePatch.id data = None ->
      Course.id <$> snd (updateCourse now id data s) = Course.id <$> s)
  /\ (forall id, NoDup (Course.id <$> s) ->
                 NoDup (Course.id <$> snd (deleteCourse id s)))
  /\ (forall rnd now data c s',
         createCourse rnd now data s = (Ok c, s') ->
         NoDup (Course.id <$> s) ->
         (NoDup (Course.id <$> s') <-> rnd ∉ (Course.id <$> s))).
Proof.
  split; [|split].
  - intros. by apply updateCourse_ids.
  - intros id Hnd. rewrite deleteCourse_unfold.
    destruct (findIndex id s) as [[idx c]|]; [|done]. simpl.
    rewrite list_fmap_delete.
    eapply sublist_NoDup; [exact Hnd | apply sublist_delete].
  - intros rnd now data c s' [-> Hid]%createCourse_Ok_inv Hnd.
    rewrite fmap_app, NoDup_app. simpl. rewrite Hid. split.
    + intros (_ & H & _) Hin. apply (H rnd Hin). left.
    + intros Hfresh. split; [done|]. split.
      * intros x Hx ->%list_elem_of_singleton. done.
      * apply NoDup_singleton.
Qed.

Lemma unique_ids_preserved_witness :
  NoDup (Course.id <$>
           snd (deleteCourse "1"
                  [Sample.reactFundamentals; Sample.advancedTypeScript])).
Proof.
  destruct (unique_ids_preserved
              [Sample.reactFundamentals; Sample.advancedTypeScript])
    as (_ & H & _).
  apply H. apply (bool_decide_unpack _). vm_compute. reflexivity.
Defined.

Lemma updated_twice now now' c data :
  now <> "" ->
  CoursePatch.publishedAt data = None ->
  Lifecycle.updated now' (Lifecycle.updated now c data) data
  = Lifecycle.updated now c data.
Proof.
  intros Hnow Hp.
  assert (Hset : truthy (Some now) = true).
  { simpl. by rewrite bool_decide_eq_false_2. }
  destruct c as [cid ct cd cdu cs cc cp],
           data as [[i|] [t|] [d|] [n|] [[| |]|] [ca|] p];
    simpl in Hp; subst p;
    unfold Lifecycle.updated, spread, setPublishedAt;
    cbn [Course.id Course.title Course.description Course.duration
         Course.status Course.createdAt Course.publishedAt
         CoursePatch.id CoursePatch.title CoursePatch.description
         CoursePatch.duration CoursePatch.status CoursePatch.createdAt
         CoursePatch.publishedAt default from_option id];
    repeat case_bool_decide; try done; cbn [andb];
    destruct (truthy cp) eqn:Hcp; cbn [negb];
    cbn [Course.id Course.title Course.description Course.duration
         Course.status Course.createdAt Course.publishedAt
         default from_option id];
    rewrite ?Hcp, ?Hset; cbn [negb]; reflexivity.
Qed.

(** X7.  Repeating an update changes nothing more, when its data holds
    neither [id] nor [publishedAt]: after such an [updateCourse] with a
    non-empty clock reading, the same request again, at whatever time,
    leaves the storage as the first one left it, whether the second
    request succeeds or throws (as it does when the first one archived the
    course). *)
Theorem updateCourse_twice
    (now now' id : string) (data : CoursePatch.t) (s : list Course.t) :
  now <> "" ->
  CoursePatch.id data = None ->
  CoursePatch.publishedAt data = None ->
  snd (updateCourse now' id data (snd (updateCourse now id data s)))
  = snd (updateCourse now id data s).
Proof.
  intros Hnow Hnoid Hp.
  pose proof (updateCourse_ids now id data s Hnoid) as Hids.
  destruct (updateCourse_storage now id data s)
    as [Hsame | (idx & c & Hf & Hna & Hs')].
  - rewrite Hsame.
    destruct (updateCourse_storage now' id data s)
      as [H | (idx & c & Hf & Hna & H)]; [done|].
    (* the first request changed nothing although the course is found and
       not archived: it stored the course it found *)
    rewrite updateCourse_unfold, Hf, bool_decide_eq_false_2 in Hsame by done.
    simpl in Hsame.
    apply findIndex_Some in Hf as [Hidx _].
    assert (Lifecycle.updated now c data = c) as Hfix.
    { apply (f_equal (fun l => l !! idx)) in Hsame.
      rewrite list_lookup_insert_eq in Hsame
        by (eapply lookup_lt_Some; eauto).
      congruence. }
    assert (Lifecycle.updated now' c data = c) as Hfix'.
    { unfold Lifecycle.updated in *.
      destruct (bool_decide (CoursePatch.status data = Some published)
                && negb (truthy (Course.publishedAt (spread c data))))
        eqn:Hb; [|done].
      exfalso. apply andb_true_iff in Hb as [_ Hb]. simpl in Hb.
      rewrite Hp in Hb. simpl in Hb.
      apply (f_equal Course.publishedAt) in Hfix. simpl in Hfix.
      rewrite <- Hfix in Hb. simpl in Hb.
      by rewrite bool_decide_eq_false_2 in Hb. }
    rewrite H, Hfix'. by apply list_insert_id.
  - rewrite Hs' in Hids |- *.
    destruct (findIndex_same_ids _ _ _ _ _ Hids Hf) as (x & Hf' & Hx).
    apply findIndex_Some in Hf as [Hidx _].
    rewrite list_lookup_insert_eq in Hx by (eapply lookup_lt_Some; eauto).
    injection Hx as <-.
    rewrite updateCourse_unfold, Hf'.
    case_bool_decide; [done|]. simpl.
    rewrite list_insert_insert_eq. f_equal. by apply updated_twice.
Qed.

Lemma updateCourse_twice_witness :
  snd (updateCourse "2024-02-02T00:00:00Z" "1" (Sample.setStatus published)
         (snd (updateCourse "2024-02-01T00:00:00Z" "1"
                 (Sample.setStatus published) [Sample.reactFundamentals])))
  = snd (updateCourse "2024-02-01T00:00:00Z" "1"
           (Sample.setStatus published) [Sample.reactFundamentals]).
Proof.
  apply (updateCourse_twice "2024-02-01T00:00:00Z");
    [discriminate | reflexivity | reflexivity].
Defined.

(** X8.  [updateCourse] fails in two ways only, not found (404) and edit
    forbidden (403), each time before it writes; it throws not found
    exactly when no stored course carries the identifier, and edit
    forbidden exactly when the first course that carries it is archived. *)
Theorem updateCourse_failures
    (now id : string) (data : CoursePatch.t) (s : list Course.t) :
  (forall e s', updateCourse now id data s = (Throw e, s') ->
                s' = s /\ (e = NotFoundError \/ e = EditForbiddenError))
  /\ (fst (updateCourse now id data s) = Throw NotFoundError
      <-> id ∉ (Course.id <$> s))
  /\ (fst (updateCourse now id data s) = Throw EditForbiddenError
      <-> exists idx c, findIndex id s = Some (idx, c)
                        /\ Course.status c = archived).
Proof.
  rewrite updateCourse_unfold.
  destruct (findIndex id s) as [[idx c]|] eqn:Hf.
  - case_bool_decide as Ha; simpl.
    + split; [intros e s' [= <- <-]; auto|]. split.
      * split; [discriminate|]. intros Hn%findIndex_None. congruence.
      * split; [eauto | done].
    + split; [discriminate|]. split.
      * split; [discriminate|]. intros Hn%findIndex_None. congruence.
      * split; [discriminate|]. intros (? & ? & [= <- <-] & ?). done.
  - simpl. split; [intros e s' [= <- <-]; auto|]. split.
    + split; [by intros _; apply findIndex_None | done].
    + split; [discriminate|]. intros (? & ? & ? & _). discriminate.
Qed.

End GatewayComposition.

(** * The provider and the handlers of the pages *)

Section ProviderFacts.
Import courseApi CourseProvider.

Lemma refresh_unfold failure (st : State) (storage : list Course.t) :
  refresh failure (st, storage)
  = (Ok tt, (reloaded failure st storage, storage)).
Proof. by destruct failure. Qed.

Lemma create_unfold rnd now data failure (st : State)
    (storage : list Course.t) :
  create rnd now data failure (st, storage) =
    match createCourse rnd now data storage with
    | (Ok _, storage') => (Ok tt, (reloaded failure st storage', storage'))
    | (Throw e, storage') =>
        (Ok tt, (rejected e "Failed to create course" st, storage'))
    end.
Proof.
  unfold create, andThen, tryCatchFinally, await. simpl.
  destruct (createCourse rnd now data storage) as [[c|e] storage'];
    [by destruct failure | done].
Qed.

Lemma update_unfold now id data failure (st : State)
    (storage : list Course.t) :
  update now id data failure (st, storage) =
    match updateCourse now id data storage with
    | (Ok _, storage') => (Ok tt, (reloaded failure st storage', storage'))
    | (Throw e, storage') =>
        (Ok tt, (rejected e "Failed to update course" st, storage'))
    end.
Proof.
  unfold update, andThen, tryCatchFinally, await. simpl.
  destruct (updateCourse now id data storage) as [[c|e] storage'];
    [by destruct failure | done].
Qed.

Lemma remove_unfold id failure (st : State) (storage : list Course.t) :
  remove id failure (st, storage) =
    match deleteCourse id storage with
    | (Ok _, storage') => (Ok tt, (reloaded failure st storage', storage'))
    | (Throw e, storage') =>
        (Ok tt, (rejected e "Failed to delete course" st, storage'))
    end.
Proof.
  unfold remove, andThen, tryCatchFinally, await. simpl.
  destruct (deleteCourse id storage) as [[c|e] storage'];
    [by destruct failure | done].
Qed.

Lemma createCourse_Throw_inv rnd now data (s s' : list Course.t) e :
  createCourse rnd now data s = (Throw e, s') ->
  e = ValidationError /\ s' = s.
Proof.
  unfold createCourse. destruct (_ || _).
  - by intros [= <- <-].
  - unfold bind, getCoursesFromStorage, saveCoursesToStorage, ret. simpl.
    discriminate.
Qed.

Lemma deleteCourse_Throw_inv id (s s' : list Course.t) e :
  deleteCourse id s = (Throw e, s') -> e = NotFoundError /\ s' = s.
Proof.
  rewrite deleteCourse_unfold.
  destruct (findIndex id s) as [[? ?]|]; [discriminate|].
  by intros [= <- <-].
Qed.

End ProviderFacts.

Section ProviderExtras.
Import courseApi CourseProvider.

(** X9.  The four asynchronous actions of the provider never reject:
    whatever the gateway does, [refresh], [create], [update] and [remove]
    resolve, and they leave [loading] false. *)
Theorem provider_never_rejects (st : State) (storage : list Course.t) :
  (forall failure,
      fst (refresh failure (st, storage)) = Ok tt
      /\ loading (fst (snd (refresh failure (st, storage)))) = false)
  /\ (forall rnd now data failure,
         fst (create rnd now data failure (st, storage)) = Ok tt
         /\ loading (fst (snd (create rnd now data failure (st, storage))))
            = false)
  /\ (forall now id data failure,
         fst (update now id data failure (st, storage)) = Ok tt
         /\ loading (fst (snd (update now id data failure (st, storage))))
            = false)
  /\ (forall id failure,
         fst (remove id failure (st, storage)) = Ok tt
         /\ loading (fst (snd (remove id failure (st, storage)))) = false).
Proof.
  split; [|split; [|split]].
  - intros failure. by rewrite refresh_unfold.
  - intros rnd now data failure. rewrite create_unfold.
    by destruct (createCourse rnd now data storage) as [[c|e] storage'].
  - intros now id data failure. rewrite update_unfold.
    by destruct (updateCourse now id data storage) as [[c|e] storage'].
  - intros id failure. rewrite remove_unfold.
    by destruct (deleteCourse id storage) as [[c|e] storage'].
Qed.

(** X10.  A write that the gateway rejects changes neither the collection
    that the provider holds nor the storage; the provider reports the
    message of the gateway as [error], never its own fallback text, and
    does not reload. *)
Theorem provider_failed_write (st : State) (storage : list Course.t) :
  (forall rnd now data failure e,
      fst (createCourse rnd now data storage) = Throw e ->
      snd (create rnd now data failure (st, storage))
      = ({| courses := courses st; loading := false;
            error := Some "Invalid data" |}, storage))
  /\ (forall now id data failure e,
         fst (updateCourse now id data storage) = Throw e ->
         snd (update now id data failure (st, storage))
         = ({| courses := courses st; loading := false;
               error := Some (message e) |}, storage)
         /\ (message e = "Course not found"
             \/ message e = "Cannot edit archived course"))
  /\ (forall id failure e,
         fst (deleteCourse id storage) = Throw e ->
         snd (remove id failure (st, storage))
         = ({| courses := courses st; loading := false;
               error := Some "Course not found" |}, storage)).
Proof.
  split; [|split].
  - intros rnd now data failure e He. rewrite create_unfold.
    destruct (createCourse rnd now data storage) as [[c|e'] storage'] eqn:Hc;
      [discriminate|].
    by apply createCourse_Throw_inv in Hc as [-> ->].
  - intros now id data failure e He. rewrite update_unfold.
    destruct (updateCourse now id data storage) as [[c|e'] storage'] eqn:Hc;
      [discriminate|].
    simpl in He. injection He as ->.
    rewrite updateCourse_unfold in Hc.
    destruct (findIndex id storage) as [[idx c]|].
    + destruct (bool_decide (Course.status c = archived)); [|discriminate].
      injection Hc as <- <-. split; [done | by right].
    + injection Hc as <- <-. split; [done | by left].
  - intros id failure e He. rewrite remove_unfold.
    destruct (deleteCourse id storage) as [[c|e'] storage'] eqn:Hc;
      [discriminate|].
    by apply deleteCourse_Throw_inv in Hc as [-> ->].
Qed.

Lemma provider_failed_write_witness :
  snd (update "2024-02-01T00:00:00Z" "4" (Sample.setTitle "Renamed") false
         (initialState, [Sample.legacyCourse]))
  = ({| courses := []; loading := false;
        error := Some "Cannot edit archived course" |},
     [Sample.legacyCourse]).
Proof.
  destruct (provider_failed_write initialState [Sample.legacyCourse])
    as (_ & H & _).
  destruct (H "2024-02-01T00:00:00Z" "4" (Sample.setTitle "Renamed") false
              EditForbiddenError eq_refl) as [Hw _].
  exact Hw.
Defined.

(** X11.  After a write that the gateway accepts and a reload that works,
    the provider holds exactly the stored collection, in the order of the
    storage, with no error: whatever it held before, a manual order
    included, is replaced. *)
Theorem provider_write_reloads (st : State) (storage : list Course.t) :
  (forall rnd now data c storage',
      createCourse rnd now data storage = (Ok c, storage') ->
      snd (create rnd now data false (st, storage))
      = ({| courses := Some <$> storage'; loading := false; error := None |},
         storage'))
  /\ (forall now id data c storage',
         updateCourse now id data storage = (Ok c, storage') ->
         snd (update now id data false (st, storage))
         = ({| courses := Some <$> storage'; loading := false;
               error := None |}, storage'))
  /\ (forall id storage',
         deleteCourse id storage = (Ok tt, storage') ->
         snd (remove id false (st, storage))
         = ({| courses := Some <$> storage'; loading := false;
               error := None |}, storage')).
Proof.
  split; [|split].
  - intros rnd now data c storage' Hc. by rewrite create_unfold, Hc.
  - intros now id data c storage' Hc. by rewrite update_unfold, Hc.
  - intros id storage' Hc. by rewrite remove_unfold, Hc.
Qed.

Lemma provider_write_reloads_witness :
  snd (remove "1" false
         ({| courses := [Some Sample.advancedTypeScript;
                         Some Sample.reactFundamentals];
             loading := false; error := None |},
          [Sample.reactFundamentals; Sample.advancedTypeScript]))
  = ({| courses := [Some Sample.advancedTypeScript];
        loading := false; error := None |},
     [Sample.advancedTypeScript]).
Proof.
  destruct (provider_write_reloads
              {| courses := [Some Sample.advancedTypeScript;
                             Some Sample.reactFundamentals];
                 loading := false; error := None |}
              [Sample.reactFundamentals; Sample.advancedTypeScript])
    as (_ & _ & H).
  exact (H "1" [Sample.advancedTypeScript] eq_refl).
Defined.

(** X12.  A write is not undone when the reload after it fails: the
    storage holds the result of the write, the provider still holds the
    collection it held before, and it reports the network error although
    the write succeeded. *)
Theorem provider_write_then_failed_reload
    (st : State) (storage : list Course.t) :
  (forall rnd now data c storage',
      createCourse rnd now data storage = (Ok c, storage') ->
      snd (create rnd now data true (st, storage))
      = ({| courses := courses st; loading := false;
            error := Some "Network error" |}, storage'))
  /\ (forall now id data c storage',
         updateCourse now id data storage = (Ok c, storage') ->
         snd (update now id data true (st, storage))
         = ({| courses := courses st; loading := false;
               error := Some "Network error" |}, storage'))
  /\ (forall id storage',
         deleteCourse id storage = (Ok tt, storage') ->
         snd (remove id true (st, storage))
         = ({| courses := courses st; loading := false;
               error := Some "Network error" |}, storage')).
Proof.
  split; [|split].
  - intros rnd now data c storage' Hc. by rewrite create_unfold, Hc.
  - intros now id data c storage' Hc. by rewrite update_unfold, Hc.
  - intros id storage' Hc. by rewrite remove_unfold, Hc.
Qed.

Lemma provider_write_then_failed_reload_witness :
  snd (remove "1" true
         ({| courses := [Some Sample.reactFundamentals];
             loading := false; error := None |},
          [Sample.reactFundamentals]))
  = ({| courses := [Some Sample.reactFundamentals];
        loading := false; error := Some "Network error" |}, []).
Proof.
  destruct (provider_write_then_failed_reload
              {| courses := [Some Sample.reactFundamentals];
                 loading := false; error := None |}
              [Sample.reactFundamentals])
    as (_ & _ & H).
  exact (H "1" [] eq_refl).
Defined.

(** X13.  The handlers of the pages announce success whatever happened:
    since the provider never rejects, [handleDelete], [handlePublish] and
    [handleArchive] always show their success toast, and [onSubmit] always
    shows its success toast and navigates to the list, and when it creates
    it always clears the saved draft, also when the gateway rejected the
    request or the reload failed. *)
Theorem handlers_always_announce_success
    (st : State) (storage : list Course.t) (failure : bool) :
  (forall id,
      fst (PageHandlers.handleDelete id failure (st, storage))
      = [PageHandlers.toast "Course deleted" "success"])
  /\ (forall now id,
         fst (PageHandlers.handlePublish now id failure (st, storage))
         = [PageHandlers.toast "Course published" "success"])
  /\ (forall now id,
         fst (PageHandlers.handleArchive now id failure (st, storage))
         = [PageHandlers.toast "Course archived" "success"])
  /\ (forall course rnd now data,
         fst (PageHandlers.onSubmit (Some course) rnd now data failure
                (st, storage))
         = [PageHandlers.toast "Course updated" "success";
            PageHandlers.navigate "/"])
  /\ (forall rnd now data,
         fst (PageHandlers.onSubmit None rnd now data failure (st, storage))
         = [PageHandlers.clearDraft;
            PageHandlers.toast "Course created" "success";
            PageHandlers.navigate "/"]).
Proof.
  unfold PageHandlers.handleDelete, PageHandlers.handlePublish,
    PageHandlers.handleArchive, PageHandlers.onSubmit, PageHandlers.tryToast.
  split; [|split; [|split; [|split]]]; intros.
  - rewrite remove_unfold.
    by destruct (deleteCourse _ _) as [[?|?] ?].
  - rewrite update_unfold.
    by destruct (updateCourse _ _ _ _) as [[?|?] ?].
  - rewrite update_unfold.
    by destruct (updateCourse _ _ _ _) as [[?|?] ?].
  - rewrite update_unfold.
    by destruct (updateCourse _ _ _ _) as [[?|?] ?].
  - rewrite create_unfold.
    by destruct (createCourse _ _ _ _) as [[?|?] ?].
Qed.

End ProviderExtras.

(** * More on the list engine *)

Section EngineSelection.
Import CourseListPage PageHandlers.
Context {rt : JsRuntime}.

Lemma filter_if {A} (b : bool) (f : A -> bool) (l : list A) :
  (if b then List.filter f l else l)
  = List.filter (fun x => negb b || f x) l.
Proof.
  destruct b; simpl; [done|].
  induction l as [|x l IH]; simpl; congruence.
Qed.

Lemma filter_if_filter {A} (b : bool) (f g : A -> bool) (l : list A) :
  (if b then List.filter f (List.filter g l) else List.filter g l)
  = List.filter (fun x => g x && (negb b || f x)) l.
Proof.
  rewrite filter_if. induction l as [|x l IH]; simpl; [done|].
  destruct (g x); simpl; [|done].
  destruct (negb b || f x); simpl; congruence.
Qed.

(** The drag view shows the courses that pass every filter that is
    switched on, in the order of the collection. *)
Lemma filtered_drag_passes (courses : list Course.t) (filters : FilterState) :
  filtered courses (handleViewChange drag filters)
  = List.filter (passes filters) courses.
Proof.
  unfold filtered. cbv zeta. cbn [view handleViewChange status search
    dateRange durationRange].
  rewrite (bool_decide_eq_true_2 (drag = drag)) by done. cbn [negb].
  rewrite (filter_if (negb (bool_decide (status filters = "all")))).
  rewrite !filter_if_filter.
  apply List.filter_ext. intros c. unfold passes.
  by rewrite negb_involutive.
Qed.

Lemma filtered_perm_passes (courses : list Course.t) (filters : FilterState) :
  filtered courses filters ≡ₚ List.filter (passes filters) courses.
Proof.
  rewrite filtered_view, filtered_drag_passes.
  destruct (bool_decide (view filters = drag)); [done | apply sort_perm].
Qed.

Lemma filtered_length (courses : list Course.t) (filters : FilterState) :
  (length (filtered courses filters) <= length courses)%nat.
Proof.
  rewrite (Permutation_length (filtered_perm_passes courses filters)).
  apply List.filter_length_le.
Qed.

Lemma filtered_elem_of (courses : list Course.t) (filters : FilterState) c :
  c ∈ filtered courses filters
  <-> c ∈ courses /\ passes filters c = true.
Proof.
  rewrite (filtered_perm_passes courses filters).
  rewrite !list_elem_of_In. apply List.filter_In.
Qed.

Lemma filter_all_false {A} (f : A -> bool) (l : list A) :
  (forall x, f x = false) -> List.filter f l = [].
Proof.
  intros Hf. induction l as [|x l IH]; simpl; [done|]. by rewrite Hf.
Qed.

End EngineSelection.

Section EngineExtras.
Import CourseListPage PageHandlers.

(** X14.  Filtering is a conjunction and sorting only rearranges: in every
    view the page shows a rearrangement of the courses of the collection
    that pass every filter that is switched on, each as often as the
    collection holds it; in the drag view it shows them in the order of
    the collection. *)
Theorem filtered_is_conjunction
    (rt : JsRuntime) (courses : list Course.t) (filters : FilterState) :
  filtered courses filters ≡ₚ List.filter (passes filters) courses
  /\ (view filters = drag ->
      filtered courses filters = List.filter (passes filters) courses).
Proof.
  split; [apply filtered_perm_passes|].
  intros Hdrag. rewrite filtered_view, filtered_drag_passes.
  by rewrite bool_decide_eq_true_2.
Qed.

Lemma filtered_is_conjunction_witness :
  @filtered SampleRuntime.runtime
    [Sample.reactFundamentals; Sample.advancedTypeScript; Sample.nodeBasics]
    (Sample.withStatus "published" Sample.dragFilters)
  = [Sample.advancedTypeScript; Sample.nodeBasics].
Proof.
  destruct (filtered_is_conjunction SampleRuntime.runtime
              [Sample.reactFundamentals; Sample.advancedTypeScript;
               Sample.nodeBasics]
              (Sample.withStatus "published" Sample.dragFilters))
    as [_ H].
  rewrite H; reflexivity.
Defined.



(** X16.  A minimum duration above the maximum shows nothing: when both
    bounds are read as numbers and the minimum is the greater one, the
    result is empty for every collection. *)
Theorem crossed_duration_bounds
    (rt : JsRuntime) (courses : list Course.t) (filters : FilterState)
    (lo hi : Z) :
  parseInt (min (durationRange filters)) = Some lo ->
  parseInt (max (durationRange filters)) = Some hi ->
  hi < lo ->
  filtered courses filters = [].
Proof.
  intros Hlo Hhi Hlt. apply Permutation_nil_r.
  rewrite filtered_perm_passes. rewrite filter_all_false; [done|].
  intros c. unfold passes. rewrite Hlo, Hhi.
  assert (nonEmpty (min (durationRange filters)) = true) as ->.
  { unfold nonEmpty. case_bool_decide as H; [|done].
    rewrite H in Hlo. discriminate. }
  assert (nonEmpty (max (durationRange filters)) = true) as ->.
  { unfold nonEmpty. case_bool_decide as H; [|done].
    rewrite H in Hhi. discriminate. }
  simpl.
  destruct (Course.duration c >=? lo) eqn:H1,
           (Course.duration c <=? hi) eqn:H2;
    rewrite ?andb_false_r, ?andb_true_r; try done.
  apply Z.geb_le in H1. apply Z.leb_le in H2. lia.
Qed.

Lemma crossed_duration_bounds_witness :
  @filtered SampleRuntime.runtime
    [Sample.reactFundamentals; Sample.advancedTypeScript]
    (Sample.withDuration "150" "130" Sample.dragFilters)
  = [].
Proof.
  apply (crossed_duration_bounds SampleRuntime.runtime _ _ 150 130);
    [reflexivity | reflexivity | lia].
Defined.

(** X17.  [clearAdvancedFilters] switches the four advanced filters off
    and nothing else: afterwards [hasAdvancedFilters] is false, every
    course that was shown is still shown, and the page shows the courses
    that pass the status and the search filter.  Hiding the panel of the
    advanced filters does not switch them off. *)
Theorem clearAdvancedFilters_shows_more
    (rt : JsRuntime) (courses : list Course.t) (filters : FilterState) :
  hasAdvancedFilters (clearAdvancedFilters filters) = false
  /\ (forall c, c ∈ filtered courses filters ->
                c ∈ filtered courses (clearAdvancedFilters filters))
  /\ (forall c, c ∈ filtered courses (clearAdvancedFilters filters)
        <-> c ∈ courses
            /\ (status filters = "all"
                \/ statusName (Course.status c) = status filters)
            /\ (search filters = ""
                \/ includes (toLowerCase (Course.title c))
                            (toLowerCase (search filters)) = true))
  /\ filtered courses (handleToggleAdvancedFilters filters)
     = filtered courses filters.
Proof.
  split; [done|].
  assert (Hclear : forall c,
             passes (clearAdvancedFilters filters) c
             = (bool_decide (status filters = "all")
                || bool_decide (statusName (Course.status c) = status filters))
               && (negb (nonEmpty (search filters))
                   || includes (toLowerCase (Course.title c))
                               (toLowerCase (search filters)))).
  { intros c. unfold passes. simpl. by rewrite !andb_true_r. }
  split; [|split; [|done]].
  - intros c. rewrite !filtered_elem_of, Hclear.
    intros [Hin Hp]. split; [done|]. unfold passes in Hp.
    do 4 (apply andb_true_iff in Hp as [Hp _]). done.
  - intros c. rewrite filtered_elem_of, Hclear, andb_true_iff, !orb_true_iff.
    unfold nonEmpty. rewrite negb_involutive, !bool_decide_eq_true. tauto.
Qed.

End EngineExtras.

(** * Drags and reorders within range *)

Section ReorderInRange.
Import CourseListPage.

Lemma findIndexZ_range {A} (p : A -> bool) (l : list A) :
  findIndexZ p l = -1 \/ 0 <= findIndexZ p l < Z.of_nat (length l).
Proof.
  unfold findIndexZ.
  destruct (list_find _ l) as [[i x]|] eqn:Hf; [right | by left].
  apply list_find_Some in Hf as (Hi & _). apply lookup_lt_Some in Hi. lia.
Qed.

Lemma findIndexZ_never {A} (p : A -> bool) (l : list A) :
  (forall x, p x = false) -> findIndexZ p l = -1.
Proof.
  intros Hp. unfold findIndexZ.
  destruct (list_find _ l) as [[i x]|] eqn:Hf; [|done].
  apply list_find_Some in Hf as (_ & Hx & _). rewrite Hp in Hx. discriminate.
Qed.

(** Within range [reorder] takes the element out and puts it back in at
    the end index. *)
Lemma reorder_in_range (l : list (option Course.t)) (i j : nat) x :
  l !! i = Some x -> (j < length l)%nat ->
  CourseContext.reorder (Z.of_nat i) (Z.of_nat j) l
  = take j (delete i l) ++ x :: drop j (delete i l).
Proof.
  intros Hi Hj. pose proof (lookup_lt_Some _ _ _ Hi) as Hlt.
  unfold CourseContext.reorder, splice at 1.
  replace (if Z.of_nat i <? 0 then Z.max (Z.of_nat (length l) + Z.of_nat i) 0
           else Z.min (Z.of_nat i) (Z.of_nat (length l)))
    with (Z.of_nat i)
    by (destruct (Z.of_nat i <? 0) eqn:E;
        [apply Z.ltb_lt in E | apply Z.ltb_ge in E]; lia).
  replace (Z.to_nat (Z.min (Z.max 1 0)
                       (Z.of_nat (length l) - Z.of_nat i)))
    with 1%nat by lia.
  rewrite Nat2Z.id, (drop_S _ _ _ Hi).
  cbn [take head default from_option id app].
  replace (i + 1)%nat with (S i) by lia.
  rewrite <- delete_take_drop.
  assert (Hlen : S (length (delete i l)) = length l).
  { rewrite length_delete by eauto. lia. }
  unfold splice.
  replace (if Z.of_nat j <? 0
           then Z.max (Z.of_nat (length (delete i l)) + Z.of_nat j) 0
           else Z.min (Z.of_nat j) (Z.of_nat (length (delete i l))))
    with (Z.of_nat j)
    by (destruct (Z.of_nat j <? 0) eqn:E;
        [apply Z.ltb_lt in E | apply Z.ltb_ge in E]; lia).
  replace (Z.to_nat (Z.min (Z.max 0 0)
                       (Z.of_nat (length (delete i l)) - Z.of_nat j)))
    with 0%nat by lia.
  by rewrite Nat2Z.id, Nat.add_0_r.
Qed.

Lemma take_delete_same {A} (l : list A) i : take i (delete i l) = take i l.
Proof.
  rewrite delete_take_drop.
  destruct (decide (i <= length l)%nat).
  - by rewrite take_app_length' by (by rewrite length_take_le).
  - rewrite (take_ge l i) by lia. rewrite drop_ge by lia.
    rewrite app_nil_r. by rewrite take_ge by lia.
Qed.

Lemma drop_delete_same {A} (l : list A) i :
  (i <= length l)%nat -> drop i (delete i l) = drop (S i) l.
Proof.
  intros Hi. rewrite delete_take_drop.
  by rewrite drop_app_length' by (by rewrite length_take_le).
Qed.

End ReorderInRange.

Section ReorderExtras.
Import CourseListPage.

(** X18.  A drag never damages the collection.  The indices that
    [handleDragEnd] passes on are positions of the displayed list, which
    is no longer than the collection, so whatever is dragged onto
    whatever, in any view and with any filter, the store afterwards holds
    a rearrangement of the courses it held; and a drop on nothing or on
    the dragged item itself changes nothing. *)
Theorem dragEnd_rearranges
    (rt : JsRuntime) (courses : list Course.t) (filters : FilterState)
    (active : string) (over : option string) :
  dragEnd courses filters active over ≡ₚ Some <$> courses
  /\ (over = None \/ over = Some active ->
      dragEnd courses filters active over = Some <$> courses).
Proof.
  unfold dragEnd, DraggableCourseList.handleDragEnd. split.
  - destruct (negb (bool_decide (Some active = over))); [|done].
    set (oldIndex := findIndexZ _ _). set (newIndex := findIndexZ _ _).
    destruct (negb (oldIndex =? -1) && negb (newIndex =? -1)) eqn:Hb; [|done].
    apply andb_true_iff in Hb as [Hold _].
    apply negb_true_iff, Z.eqb_neq in Hold.
    destruct (findIndexZ_range
                (fun course => bool_decide (Course.id course = active))
                (filtered courses filters)) as [? | Hrange]; [done|].
    fold oldIndex in Hrange.
    pose proof (filtered_length courses filters) as Hlen.
    unfold handleReorder. apply reorder_perm.
    + intros Hnil. apply (f_equal length) in Hnil.
      rewrite length_fmap in Hnil. simpl in Hnil. lia.
    + rewrite length_fmap. lia.
  - intros [-> | ->].
    + rewrite (findIndexZ_never
                 (fun course => bool_decide (Some (Course.id course) = None)))
        by done.
      simpl. by rewrite andb_false_r.
    + by rewrite bool_decide_eq_true_2.
Qed.

Lemma dragEnd_rearranges_witness :
  @dragEnd SampleRuntime.runtime
    [Sample.reactFundamentals; Sample.advancedTypeScript]
    Sample.dragFilters "1" None
  = [Some Sample.reactFundamentals; Some Sample.advancedTypeScript].
Proof.
  destruct (dragEnd_rearranges SampleRuntime.runtime
              [Sample.reactFundamentals; Sample.advancedTypeScript]
              Sample.dragFilters "1" None) as [_ H].
  apply H. left. reflexivity.
Defined.

(** X19.  Within range, [reorder(i, j)] moves the element of position [i]
    to position [j]: the array keeps its length, the positions below both
    indices and above both indices hold what they held, and with [i = j]
    the array is unchanged. *)
Theorem reorder_moves_element
    (l : list (option Course.t)) (i j : nat) (x : option Course.t) :
  l !! i = Some x ->
  (j < length l)%nat ->
  CourseContext.reorder (Z.of_nat i) (Z.of_nat j) l !! j = Some x
  /\ length (CourseContext.reorder (Z.of_nat i) (Z.of_nat j) l) = length l
  /\ (forall k, (k < i)%nat -> (k < j)%nat ->
        CourseContext.reorder (Z.of_nat i) (Z.of_nat j) l !! k = l !! k)
  /\ (forall k, (i < k)%nat -> (j < k)%nat ->
        CourseContext.reorder (Z.of_nat i) (Z.of_nat j) l !! k = l !! k)
  /\ (i = j -> CourseContext.reorder (Z.of_nat i) (Z.of_nat j) l = l).
Proof.
  intros Hi Hj. pose proof (lookup_lt_Some _ _ _ Hi) as Hlt.
  rewrite (reorder_in_range l i j x Hi Hj).
  assert (Hlen : S (length (delete i l)) = length l).
  { rewrite length_delete by eauto. lia. }
  assert (Htake : length (take j (delete i l)) = j).
  { apply length_take_le. lia. }
  split; [|split; [|split; [|split]]].
  - by rewrite list_lookup_middle.
  - rewrite length_app. simpl. rewrite length_drop, Htake. lia.
  - intros k Hki Hkj.
    rewrite lookup_app_l by lia.
    rewrite lookup_take_lt by done. by apply list_lookup_delete_lt.
  - intros k Hik Hjk.
    rewrite lookup_app_r by lia. rewrite Htake.
    destruct (k - j)%nat as [|n] eqn:Hn; [lia|]. simpl.
    rewrite lookup_drop.
    rewrite list_lookup_delete_ge by lia. f_equal. lia.
  - intros <-. rewrite take_delete_same, drop_delete_same by lia.
    by apply take_drop_middle.
Qed.

Lemma reorder_moves_element_witness :
  CourseContext.reorder 0 1
    [Some Sample.reactFundamentals; Some Sample.advancedTypeScript]
    !! 1%nat
  = Some (Some Sample.reactFundamentals).
Proof.
  destruct (reorder_moves_element
              [Some Sample.reactFundamentals; Some Sample.advancedTypeScript]
              0 1 (Some Sample.reactFundamentals) eq_refl)
    as [H _]; [simpl; lia | exact H].
Defined.

(** X20.  Within range a reorder is undone by the opposite reorder:
    [reorder(j, i)] after [reorder(i, j)] gives the array back. *)
Theorem reorder_back
    (l : list (option Course.t)) (i j : nat) :
  (i < length l)%nat ->
  (j < length l)%nat ->
  CourseContext.reorder (Z.of_nat j) (Z.of_nat i)
    (CourseContext.reorder (Z.of_nat i) (Z.of_nat j) l)
  = l.
Proof.
  intros Hi Hj.
  destruct (lookup_lt_is_Some_2 l i Hi) as [x Hx].
  rewrite (reorder_in_range l i j x Hx Hj).
  assert (Hlen : S (length (delete i l)) = length l).
  { rewrite length_delete by eauto. lia. }
  assert (Htake : length (take j (delete i l)) = j).
  { apply length_take_le. lia. }
  rewrite (reorder_in_range _ j i x).
  - assert (delete j (take j (delete i l) ++ x :: drop j (delete i l))
            = delete i l) as ->.
    { rewrite <- Htake at 1. rewrite delete_middle. apply take_drop. }
    rewrite take_delete_same, drop_delete_same by lia.
    by apply take_drop_middle.
  - by rewrite list_lookup_middle.
  - rewrite length_app. simpl. rewrite length_drop, Htake. lia.
Qed.

Lemma reorder_back_witness :
  CourseContext.reorder 2 0
    (CourseContext.reorder 0 2
       [Some Sample.reactFundamentals; Some Sample.advancedTypeScript;
        Some Sample.nodeBasics])
  = [Some Sample.reactFundamentals; Some Sample.advancedTypeScript;
     Some Sample.nodeBasics].
Proof.
  apply (reorder_back
           [Some Sample.reactFundamentals; Some Sample.advancedTypeScript;
            Some Sample.nodeBasics] 0 2); simpl; lia.
Defined.

End ReorderExtras.

(** * Durations for display *)

Section FormatFacts.
Import Utils.
Local Open Scope string_scope.
Local Open Scope Z_scope.

Lemma append_assoc (a b c : string) : (a ++ b) ++ c = a ++ (b ++ c).
Proof.
  induction a as [|x a IH]; [reflexivity|].
  change (String x ((a ++ b) ++ c) = String x (a ++ (b ++ c))).
  by rewrite IH.
Qed.

(** A number starts with a digit or a minus sign. *)
Lemma numberToString_head (n : Z) :
  exists c rest, numberToString n = String c rest /\ isWhiteSpace c = false.
Proof.
  unfold numberToString.
  destruct n as [|p|p]; simpl.
  - by eexists _, _.
  - destruct (Pos.to_uint p); by eexists _, _.
  - by eexists _, _.
Qed.

Lemma trimEnd_append (a b : string) :
  trimEnd b = b -> b <> "" -> trimEnd (a ++ b) = a ++ b.
Proof.
  intros Hb Hne. induction a as [|x a IH]; [exact Hb|].
  change (trimEnd (String x (a ++ b)) = String x (a ++ b)).
  cbn [trimEnd]. rewrite IH. destruct (a ++ b) eqn:Hab; [|done].
  destruct a; [by rewrite <- Hab in Hne | discriminate Hab].
Qed.

Lemma trim_number (n : Z) (tail : string) :
  trimEnd tail = tail -> tail <> "" ->
  trim (numberToString n ++ tail) = numberToString n ++ tail.
Proof.
  intros Ht Hne. unfold trim.
  destruct (numberToString_head n) as (c & rest & -> & Hc).
  change (String c rest ++ tail) with (String c (rest ++ tail)) at 1.
  cbn [trimStart]. rewrite Hc.
  change (String c (rest ++ tail)) with (String c rest ++ tail).
  by apply trimEnd_append.
Qed.

Lemma minutes_tail (plural : bool) :
  let tail := if plural then " minutes" else " minute" in
  trimEnd tail = tail /\ tail <> "".
Proof. by destruct plural. Qed.

(** The text without its [trim], which removes nothing. *)
Lemma formatDuration_unfold (minutes : Z) :
  formatDuration minutes =
    (if minutes / 60 >? 0
     then numberToString (minutes / 60)
          ++ (if minutes / 60 >? 1 then " hours " else " hour ")
     else "")
    ++ numberToString (Z.rem minutes 60)
    ++ (if Z.rem minutes 60 =? 1 then " minute" else " minutes").
Proof.
  unfold formatDuration. cbv zeta.
  set (h := minutes / 60). set (m := Z.rem minutes 60).
  assert (Htail : (" minute" ++ (if negb (m =? 1) then "s" else ""))
                  = (if m =? 1 then " minute" else " minutes"))
    by (by destruct (m =? 1)).
  rewrite Htail.
  destruct (minutes_tail (negb (m =? 1))) as [Ht Hne].
  assert (Hm : let tail := if m =? 1 then " minute" else " minutes" in
               trimEnd tail = tail /\ tail <> "")
    by (by destruct (m =? 1)).
  destruct Hm as [Hm1 Hm2].
  destruct (h >? 0).
  - assert (Hh : (numberToString h ++ " hour"
                  ++ (if h >? 1 then "s" else "") ++ " ")
                 = numberToString h
                   ++ (if h >? 1 then " hours " else " hour "))
      by (by destruct (h >? 1)).
    rewrite Hh, !append_assoc. apply trim_number.
    + rewrite <- append_assoc. by apply trimEnd_append.
    + by destruct (h >? 1).
  - simpl. by apply trim_number.
Qed.

End FormatFacts.

Section FormatExtras.
Import Utils.
Local Open Scope string_scope.
Local Open Scope Z_scope.

(** X21.  [formatDuration] of a duration that is not negative: below one
    hour it is the number of minutes, with [minute] for 1 and [minutes]
    otherwise; from one hour on it is the number of whole hours, with
    [hour] below two hours and [hours] otherwise, followed by the text for
    the remaining minutes.  Nothing is trimmed away. *)
Theorem formatDuration_nonnegative (minutes : Z) :
  0 <= minutes ->
  (minutes < 60 ->
   formatDuration minutes
   = numberToString minutes
     ++ (if minutes =? 1 then " minute" else " minutes"))
  /\ (60 <= minutes ->
      formatDuration minutes
      = numberToString (minutes / 60)
        ++ (if minutes <? 120 then " hour " else " hours ")
        ++ formatDuration (minutes mod 60)).
Proof.
  intros Hpos. split.
  - intros Hlt. rewrite formatDuration_unfold.
    rewrite Z.div_small, Z.rem_small by lia. reflexivity.
  - intros Hge.
    assert (Hmod : 0 <= minutes mod 60 < 60) by (apply Z.mod_pos_bound; lia).
    rewrite (formatDuration_unfold (minutes mod 60)).
    rewrite (Z.div_small (minutes mod 60)), (Z.rem_small (minutes mod 60))
      by lia.
    rewrite formatDuration_unfold.
    rewrite Z.rem_mod_nonneg by lia.
    assert (H1 : 1 <= minutes / 60) by (apply Z.div_le_lower_bound; lia).
    assert (H2 : minutes < 120 -> minutes / 60 < 2)
      by (intros; apply Z.div_lt_upper_bound; lia).
    assert (H3 : 120 <= minutes -> 2 <= minutes / 60)
      by (intros; apply Z.div_le_lower_bound; lia).
    rewrite !Z.gtb_ltb.
    destruct (Z.ltb_spec 0 (minutes / 60)); [|lia].
    rewrite append_assoc.
    destruct (Z.ltb_spec 1 (minutes / 60)), (Z.ltb_spec minutes 120);
      try reflexivity; lia.
Qed.

Lemma formatDuration_nonnegative_witness :
  formatDuration 135 = "2 hours 15 minutes".
Proof.
  destruct (formatDuration_nonnegative 135) as [_ H]; [lia|].
  rewrite H by lia. reflexivity.
Defined.

(** X22.  [formatDuration] of a negative duration, which [updateCourse]
    can store, loses the hours: the text is the remainder of the division
    by 60, a number from -59 to 0, followed by [minutes], so two negative
    durations that differ by whole hours read the same. *)
Theorem formatDuration_negative (minutes : Z) :
  minutes < 0 ->
  formatDuration minutes = numberToString (Z.rem minutes 60) ++ " minutes"
  /\ -60 < Z.rem minutes 60 <= 0
  /\ formatDuration (minutes - 60) = formatDuration minutes.
Proof.
  intros Hneg.
  assert (Hrem : -60 < Z.rem minutes 60 <= 0).
  { pose proof (Z.rem_bound_pos_neg minutes 60). lia. }
  assert (Hfmt : forall n, n < 0 ->
            formatDuration n = numberToString (Z.rem n 60) ++ " minutes").
  { intros n Hn. rewrite formatDuration_unfold.
    assert (n / 60 < 0) by (apply Z.div_lt_upper_bound; lia).
    pose proof (Z.rem_bound_pos_neg n 60).
    rewrite Z.gtb_ltb.
    destruct (Z.ltb_spec 0 (n / 60)); [lia|].
    destruct (Z.eqb_spec (Z.rem n 60) 1); [lia|].
    reflexivity. }
  split; [by apply Hfmt|]. split; [done|].
  rewrite !Hfmt by lia. do 2 f_equal.
  replace (minutes - 60) with (minutes + (-1) * 60) by lia.
  rewrite Z.rem_add; [done | lia|].
  replace (minutes + -1 * 60) with (minutes - 60) by lia.
  nia.
Qed.

Lemma formatDuration_negative_witness :
  formatDuration (-90) = "-30 minutes".
Proof.
  destruct (formatDuration_negative (-90)) as [H _]; [lia|].
  rewrite H. reflexivity.
Defined.

End FormatExtras.

(** * Invariants along sequences of writes, and a drag in full *)

Section SequenceExtras.
Import courseApi Lifecycle.

(** A position that holds a course keeps holding one: the same course or
    an update of it. *)
Lemma apply_lookup_forward op (s : list Course.t) i c :
  s !! i = Some c ->
  exists c', apply op s !! i = Some c'
             /\ (c' = c
                 \/ exists id data, op = Update (clock op) id data
                                    /\ c' = updated (clock op) c data).
Proof.
  intros Hi.
  destruct (lookup_lt_is_Some_2 (apply op s) i) as [c' Hc'].
  { pose proof (apply_length op s). apply lookup_lt_Some in Hi. lia. }
  exists c'. split; [done|].
  destruct (apply_lookup_inv _ _ _ _ Hc')
    as [Hsame | [[Hnone _] | (id & x & data & Hop & Hx & _ & ->)]].
  - left. congruence.
  - congruence.
  - right. exists id, data. split; [done | congruence].
Qed.

(** X23.  Identity and creation time are kept by every request that does
    not carry them: along every sequence of create requests and of update
    requests whose data holds neither [id] nor [createdAt], a stored
    course stays in its position and keeps its [id] and its [createdAt].
    The requests that the pages issue are of that kind. *)
Theorem id_and_createdAt_immutable
    (ops : list Op) (s : list Course.t) (i : nat) (c : Course.t) :
  Forall leavesIdentity ops ->
  s !! i = Some c ->
  (exists c', run ops s !! i = Some c'
              /\ Course.id c' = Course.id c
              /\ Course.createdAt c' = Course.createdAt c)
  /\ (forall op, Pages.pageRequest op -> leavesIdentity op).
Proof.
  intros Hleaves Hi. split; [|intros op Hop; by apply pageRequest_leaves].
  induction ops as [|op ops IH] using rev_ind; [by exists c|].
  apply Forall_app in Hleaves as [Hleaves Hleave].
  rewrite Forall_singleton in Hleave.
  destruct (IH Hleaves) as (c1 & Hc1 & Hid & Hca). rewrite run_snoc.
  destruct (apply_lookup_forward op _ _ _ Hc1)
    as (c' & Hc' & [-> | (id & data & Hop & ->)]).
  - by exists c1.
  - rewrite Hop in Hleave. destruct Hleave as [Hnoid Hnoca].
    eexists. split; [exact Hc'|].
    by rewrite updated_id, updated_createdAt, Hnoid, Hnoca.
Qed.

Lemma id_and_createdAt_immutable_witness :
  exists c',
    run [Update "2024-02-01T00:00:00Z" "1" (Sample.setTitle "Renamed");
         Update "2024-02-02T00:00:00Z" "1" (Sample.setStatus published)]
        [Sample.reactFundamentals] !! 0%nat = Some c'
    /\ Course.id c' = "1"
    /\ Course.createdAt c' = "2024-01-01T00:00:00Z".
Proof.
  apply (id_and_createdAt_immutable _ [Sample.reactFundamentals] 0%nat
           Sample.reactFundamentals).
  - repeat constructor.
  - reflexivity.
Defined.

(** X24.  A published course has its publication date, as long as no
    update carries a [publishedAt]: along every sequence of create
    requests and of update requests whose data holds no [publishedAt],
    with non-empty clock readings and starting from courses as
    [createCourse] makes them, every stored course with status
    [published] has a [publishedAt]. *)
Theorem published_has_publishedAt
    (ops : list Op) (s0 : list Course.t) (i : nat) (c : Course.t) :
  Forall (fun op => clock op <> "") ops ->
  Forall leavesPublishedAt ops ->
  Forall fresh s0 ->
  run ops s0 !! i = Some c ->
  Course.status c = published ->
  truthy (Course.publishedAt c) = true.
Proof.
  intros Hclock Hleaves Hfresh Hc Hp.
  apply (publishedAt_iff_everPublished ops s0 Hclock Hleaves Hfresh i c Hc).
  by eapply everPublished_now.
Qed.

Lemma published_has_publishedAt_witness :
  truthy (Some "2024-02-02T00:00:00Z") = true.
Proof.
  apply (published_has_publishedAt
           [Create "k3x9q2m1a" "2024-02-01T00:00:00Z" Sample.newCourse;
            Update "2024-02-02T00:00:00Z" "k3x9q2m1a"
                   (Sample.setStatus published)]
           [] 0%nat
           {| Course.id := "k3x9q2m1a";
              Course.title := "New Course";
              Course.description := Some "Test";
              Course.duration := 60;
              Course.status := published;
              Course.createdAt := "2024-02-01T00:00:00Z";
              Course.publishedAt := Some "2024-02-02T00:00:00Z" |}).
  - repeat constructor; simpl; discriminate.
  - repeat constructor.
  - constructor.
  - reflexivity.
  - reflexivity.
Defined.

End SequenceExtras.

Section DragExtras.
Import CourseListPage.

Lemma findIndexZ_unique (courses : list Course.t) (p : Course.t -> bool)
    (i : nat) (a : Course.t) :
  NoDup (Course.id <$> courses) ->
  courses !! i = Some a ->
  (forall x, p x = true <-> Course.id x = Course.id a) ->
  findIndexZ p courses = Z.of_nat i.
Proof.
  intros Hnd Hi Hp. unfold findIndexZ.
  assert (list_find (fun x => p x = true) courses = Some (i, a)) as ->; [|done].
  apply list_find_Some. split; [done|]. split; [by apply Hp|].
  intros j y Hj Hlt Hy. apply Hp in Hy.
  assert (j = i); [|lia].
  apply (NoDup_lookup _ _ _ (Course.id a) Hnd);
    rewrite list_lookup_fmap; [rewrite Hj | rewrite Hi]; simpl; congruence.
Qed.

(** X25.  A drag in full: when the page displays the whole collection in
    its own order and identifiers are unique, dropping the course of
    position [i] on the course of another position [j] puts it at
    position [j] in the store. *)
Theorem drag_lands_on_target
    (rt : JsRuntime) (courses : list Course.t) (filters : FilterState)
    (i j : nat) (a b : Course.t) :
  NoDup (Course.id <$> courses) ->
  filtered courses filters = courses ->
  courses !! i = Some a ->
  courses !! j = Some b ->
  i <> j ->
  dragEnd courses filters (Course.id a) (Some (Course.id b)) !! j
  = Some (Some a).
Proof.
  intros Hnd Hshown Hi Hj Hne.
  assert (Hids : Course.id a <> Course.id b).
  { intros Heq. apply Hne.
    apply (NoDup_lookup _ _ _ (Course.id a) Hnd);
      rewrite list_lookup_fmap; [rewrite Hi | rewrite Hj]; simpl; congruence. }
  unfold dragEnd, DraggableCourseList.handleDragEnd. rewrite Hshown.
  rewrite bool_decide_eq_false_2 by congruence. cbn [negb].
  rewrite (findIndexZ_unique courses _ i a Hnd Hi)
    by (intros x; apply bool_decide_eq_true).
  rewrite (findIndexZ_unique courses _ j b Hnd Hj)
    by (intros x; rewrite bool_decide_eq_true; split; congruence).
  replace (negb (Z.of_nat i =? -1) && negb (Z.of_nat j =? -1)) with true
    by (symmetry; apply andb_true_iff; split;
        apply negb_true_iff, Z.eqb_neq; lia).
  unfold handleReorder.
  rewrite (reorder_in_range _ i j (Some a)).
  - rewrite list_lookup_middle; [done|]. symmetry.
    apply length_take_le. rewrite length_delete, length_fmap.
    + apply lookup_lt_Some in Hj. lia.
    + rewrite list_lookup_fmap, Hi. by eexists.
  - by rewrite list_lookup_fmap, Hi.
  - rewrite length_fmap. by eapply lookup_lt_Some.
Qed.

Lemma drag_lands_on_target_witness :
  @dragEnd SampleRuntime.runtime
    [Sample.reactFundamentals; Sample.advancedTypeScript; Sample.nodeBasics]
    Sample.dragFilters "1" (Some "3") !! 2%nat
  = Some (Some Sample.reactFundamentals).
Proof.
  apply (drag_lands_on_target SampleRuntime.runtime
           [Sample.reactFundamentals; Sample.advancedTypeScript;
            Sample.nodeBasics]
           Sample.dragFilters 0 2
           Sample.reactFundamentals Sample.nodeBasics).
  - apply (bool_decide_unpack _). vm_compute. reflexivity.
  - reflexivity.
  - reflexivity.
  - reflexivity.
  - lia.
Defined.

End DragExtras.
